(** * Misskey backend of the unified fediverse client

    A shallow embedding of the Misskey entity converters (namespace
    [MisskeyAPI.Converter]) and of the request primitive
    [MisskeyAPI.Client.post], both found in
    src/misskey/entities/notification.ts after the notification entity,
    and of the client facade (class [Misskey], src/misskey.ts), followed by
    the properties of the specification that concern them.

    Conventions.
    - A JavaScript [number] that counts something (votes, followers, a page
      limit) is an integer [Z]; [NaN] and fractions are outside the model.
      The converters add such numbers exactly, as JavaScript does up to
      2^53; the rounding of doubles beyond that is in module [JsNumber],
      and the property of the vote count is stated against it.
    - An optional or nullable parameter [x?: T | null] is an [option T];
      [None] stands for both [undefined] and [null], which every test of
      the source ([if (x)], [!x]) treats alike.
    - A request body is a JavaScript object used as a dictionary: a
      [gmap string Value].
    - [moment()] reads the wall clock; the reading is an explicit argument
      [now] (milliseconds since the epoch), and the readings made while one
      response is converted are taken to be one instant. [moment(s)] parses
      a timestamp; the parser belongs to the moment library and is a
      parameter [moment_parse] of the development.
    - The options of a request (cancel token, user agent, proxy agent) are
      left to the transport. *)

From Stdlib Require Import ZArith.
From stdpp Require Import base option list strings gmap.

Local Open Scope Z_scope.

(** ** JavaScript truthiness, for the guards [if (x)] and [!x] *)

Definition truthy_string (s : option string) : option string :=
  match s with
  | Some s' => if decide (s' = "") then None else Some s'
  | None => None
  end.

Definition truthy_number (n : option Z) : option Z :=
  match n with
  | Some z => if decide (z = 0) then None else Some z
  | None => None
  end.

Definition truthy_bool (b : option bool) : option bool :=
  match b with
  | Some true => Some true
  | _ => None
  end.

(** ** Backend-native entities (namespace [MisskeyEntity])

    The records list the fields the converters read. *)

Module MisskeyEntity.

Record Emoji := { emoji_name : string; emoji_url : string }.

Record User := {
  user_id : string;
  user_name : string;
  user_username : string;
  user_host : option string;
  user_avatarUrl : string;
  user_avatarColor : string;
  user_emojis : list Emoji
}.

Record UserDetail := {
  ud_id : string;
  ud_name : string;
  ud_username : string;
  ud_host : option string;
  ud_avatarUrl : string;
  ud_avatarColor : string;
  ud_isLocked : bool;
  ud_createdAt : string;
  ud_followersCount : Z;
  ud_followingCount : Z;
  ud_notesCount : Z;
  ud_description : string;
  ud_bannerUrl : string;
  ud_bannerColor : string;
  ud_emojis : list Emoji;
  ud_isBot : bool
}.

Record File := {
  file_id : string;
  file_url : string;
  file_thumbnailUrl : string;
  file_isSensitive : bool
}.

Record Choice := { choice_text : string; choice_votes : Z; choice_isVoted : bool }.

(** A Misskey poll has no identifier of its own: it lives inside its note. *)
Record Poll := {
  poll_expiresAt : string;
  poll_multiple : bool;
  poll_choices : list Choice
}.

Variant Visibility := v_public | v_home | v_followers | v_specified.

#[local] Unset Elimination Schemes.
Inductive Note := mkNote {
  note_id : string;
  note_createdAt : string;
  note_user : User;
  note_text : option string;
  note_cw : option string;
  note_visibility : Visibility;
  note_renoteCount : Z;
  note_repliesCount : Z;
  note_emojis : list Emoji;
  note_files : option (list File);
  note_replyId : option string;
  note_reply : option Note;
  note_renote : option Note;
  note_poll : option Poll
}.
#[local] Set Elimination Schemes.

Record Relation := {
  rel_id : string;
  rel_isFollowing : bool;
  rel_hasPendingFollowRequestFromYou : bool;
  rel_isFollowed : bool;
  rel_isBlocking : bool;
  rel_isMuted : bool
}.

Record List := { list_id : string; list_name : string; list_userIds : list string }.

Record Follower := { follower_follower : User }.
Record Following := { following_followee : User }.
Record FollowRequest := { fr_follower : User }.
Record Favorite := { fav_note : Note }.
Record Mute := { mute_mutee : UserDetail }.
Record Blocking := { blocking_blockee : UserDetail }.
Record CreatedNote := { createdNote : Note }.

End MisskeyEntity.

(** ** Unified entities (namespace [MegalodonEntity]) *)

Module MegalodonEntity.

Record Emoji := {
  shortcode : string;
  emoji_static_url : string;
  emoji_url : string;
  visible_in_picker : bool
}.

Record Field := { field_name : string; field_value : string }.

#[local] Unset Elimination Schemes.
Inductive Account := mkAccount {
  account_id : string;
  username : string;
  acct : string;
  display_name : string;
  locked : bool;
  account_created_at : string;
  followers_count : Z;
  following_count : Z;
  statuses_count : Z;
  account_note : string;
  account_url : string;
  avatar : string;
  avatar_static : string;
  header : string;
  header_static : string;
  account_emojis : list Emoji;
  moved : option Account;
  fields : option (list Field);
  bot : option bool
}.
#[local] Set Elimination Schemes.

Record Attachment := {
  attachment_id : string;
  attachment_type : string;
  attachment_url : string;
  remote_url : string;
  preview_url : string;
  text_url : string;
  meta : option string;
  description : option string
}.

Record PollOption := { title : string; option_votes_count : Z }.

Record Poll := {
  poll_id : string;
  expires_at : string;
  expired : bool;
  multiple : bool;
  votes_count : Z;
  options : list PollOption;
  voted : bool
}.

(** Entities no Misskey converter ever builds: they only type fields
    that are always empty and the results of the operations Misskey
    lacks, and are kept to a name or an identifier. *)
Record Mention := { mention_id : string }.
Record Tag := { tag_name : string }.
Record Card := { card_url : string }.
Record Application := { app_name : string }.
Record Token := { access_token : string }.
Record IdentityProof := { provider : string }.
Record Filter := { filter_id : string }.
Record FeaturedTag := { featured_tag_id : string }.
Record Preferences := { posting_default_language : option string }.
Record ScheduledStatus := { scheduled_status_id : string }.
Record Marker := { marker_last_read_id : string }.

Variant Visibility := public | unlisted | private | direct.

#[local] Unset Elimination Schemes.
Inductive Status := mkStatus {
  status_id : string;
  uri : string;
  url : string;
  account : Account;
  in_reply_to_id : option string;
  in_reply_to_account_id : option string;
  reblog : option Status;
  content : option string;
  created_at : string;
  emojis : list Emoji;
  replies_count : Z;
  reblogs_count : Z;
  favourites_count : Z;
  reblogged : bool;
  favourited : bool;
  muted : bool;
  sensitive : bool;
  spoiler_text : string;
  visibility : Visibility;
  media_attachments : list Attachment;
  mentions : list Mention;
  tags : list Tag;
  card : option Card;
  poll : option Poll;
  application : option Application;
  language : option string;
  pinned : option bool
}.
#[local] Set Elimination Schemes.

Record Relationship := {
  relationship_id : string;
  following : bool;
  followed_by : bool;
  blocking : bool;
  muting : bool;
  muting_notifications : bool;
  requested : bool;
  domain_blocking : bool;
  showing_reblogs : bool;
  endorsed : bool
}.

Record Conversation := {
  conversation_id : string;
  accounts : list Account;
  last_status : Status;
  unread : bool
}.

Record List := { list_id : string; list_title : string }.

Record Report := {
  report_id : string;
  action_taken : string;
  report_comment : string;
  report_account_id : string;
  status_ids : list string
}.

Record Context := { ancestors : list Status; descendants : list Status }.

End MegalodonEntity.

(** ** Entity converters (namespace [MisskeyAPI.Converter]) *)

Module Converter.
Import MisskeyEntity.
Module E := MegalodonEntity.

Definition emoji (e : Emoji) : E.Emoji :=
  {| E.shortcode := emoji_name e;
     E.emoji_static_url := emoji_url e;
     E.emoji_url := emoji_url e;
     E.visible_in_picker := true |}.

Definition user (u : User) : E.Account :=
  let acct :=
    match truthy_string (user_host u) with
    | Some h => user_username u +:+ "@" +:+ h
    | None => user_username u
    end in
  {| E.account_id := user_id u;
     E.username := user_username u;
     E.acct := acct;
     E.display_name := user_name u;
     E.locked := false;
     E.account_created_at := "";
     E.followers_count := 0;
     E.following_count := 0;
     E.statuses_count := 0;
     E.account_note := "";
     E.account_url := "";
     E.avatar := user_avatarUrl u;
     E.avatar_static := user_avatarColor u;
     E.header := "";
     E.header_static := "";
     E.account_emojis := map emoji (user_emojis u);
     E.moved := None;
     E.fields := None;
     E.bot := None |}.

Definition userDetail (u : UserDetail) : E.Account :=
  let acct :=
    match truthy_string (ud_host u) with
    | Some h => ud_username u +:+ "@" +:+ h
    | None => ud_username u
    end in
  {| E.account_id := ud_id u;
     E.username := ud_username u;
     E.acct := acct;
     E.display_name := ud_name u;
     E.locked := ud_isLocked u;
     E.account_created_at := ud_createdAt u;
     E.followers_count := ud_followersCount u;
     E.following_count := ud_followingCount u;
     E.statuses_count := ud_notesCount u;
     E.account_note := ud_description u;
     E.account_url := acct;
     E.avatar := ud_avatarUrl u;
     E.avatar_static := ud_avatarColor u;
     E.header := ud_bannerUrl u;
     E.header_static := ud_bannerColor u;
     E.account_emojis := map emoji (ud_emojis u);
     E.moved := None;
     E.fields := None;
     E.bot := Some (ud_isBot u) |}.

Definition visibility (v : Visibility) : E.Visibility :=
  match v with
  | v_public => E.public
  | v_home => E.unlisted
  | v_followers => E.private
  | v_specified => E.direct
  end.

Definition encodeVisibility (v : E.Visibility) : Visibility :=
  match v with
  | E.public => v_public
  | E.unlisted => v_home
  | E.private => v_followers
  | E.direct => v_specified
  end.

Definition file (f : File) : E.Attachment :=
  {| E.attachment_id := file_id f;
     E.attachment_type := "image";
     E.attachment_url := file_url f;
     E.remote_url := file_url f;
     E.preview_url := file_thumbnailUrl f;
     E.text_url := file_url f;
     E.meta := None;
     E.description := None |}.

Definition follower (f : Follower) : E.Account := user (follower_follower f).

Definition following (f : Following) : E.Account := user (following_followee f).

Definition relation (r : Relation) : E.Relationship :=
  {| E.relationship_id := rel_id r;
     E.following := rel_isFollowing r;
     E.followed_by := rel_isFollowed r;
     E.blocking := rel_isBlocking r;
     E.muting := rel_isMuted r;
     E.muting_notifications := false;
     E.requested := rel_hasPendingFollowRequestFromYou r;
     E.domain_blocking := false;
     E.showing_reblogs := true;
     E.endorsed := false |}.

Definition choice (c : Choice) : E.PollOption :=
  {| E.title := choice_text c; E.option_votes_count := choice_votes c |}.

(** [a.isAfter(b)] of moment: a comparison of instants, [false] as soon
    as one side is not a valid date. The left side is always [moment()],
    which is valid. *)
Definition isAfter (now : Z) (other : option Z) : bool :=
  match other with
  | Some t => bool_decide (t < now)
  | None => false
  end.

Section WithMoment.
(** [moment(s)]: the instant a timestamp string denotes, [None] for an
    invalid date. *)
Variable moment_parse : string -> option Z.

Definition poll (now : Z) (p : Poll) : E.Poll :=
  let expire := moment_parse (poll_expiresAt p) in
  let count := fold_left (fun sum choice => sum + choice_votes choice) (poll_choices p) 0 in
  {| E.poll_id := "";
     E.expires_at := poll_expiresAt p;
     E.expired := isAfter now expire;
     E.multiple := poll_multiple p;
     E.votes_count := count;
     E.options := map choice (poll_choices p);
     E.voted := existsb choice_isVoted (poll_choices p) |}.

Fixpoint note (now : Z) (n : Note) : E.Status :=
  {| E.status_id := note_id n;
     E.uri := "";
     E.url := "";
     E.account := user (note_user n);
     E.in_reply_to_id := note_replyId n;
     E.in_reply_to_account_id := None;
     E.reblog := match note_renote n with Some r => Some (note now r) | None => None end;
     E.content := note_text n;
     E.created_at := note_createdAt n;
     E.emojis := map emoji (note_emojis n);
     E.replies_count := note_repliesCount n;
     E.reblogs_count := note_renoteCount n;
     E.favourites_count := 0;
     E.reblogged := false;
     E.favourited := false;
     E.muted := false;
     E.sensitive :=
       match note_files n with Some fs => existsb file_isSensitive fs | None => false end;
     E.spoiler_text := match truthy_string (note_cw n) with Some cw => cw | None => "" end;
     E.visibility := visibility (note_visibility n);
     E.media_attachments :=
       match note_files n with Some fs => map file fs | None => [] end;
     E.mentions := [];
     E.tags := [];
     E.card := None;
     E.poll := match note_poll n with Some p => Some (poll now p) | None => None end;
     E.application := None;
     E.language := None;
     E.pinned := None |}.

Definition noteToConversation (now : Z) (n : Note) : E.Conversation :=
  let accounts := [user (note_user n)] in
  let accounts :=
    match note_reply n with
    | Some r => accounts ++ [user (note_user r)]
    | None => accounts
    end in
  {| E.conversation_id := note_id n;
     E.accounts := accounts;
     E.last_status := note now n;
     E.unread := false |}.
End WithMoment.

Definition list (l : List) : E.List :=
  {| E.list_id := list_id l; E.list_title := list_name l |}.

End Converter.

(** ** Promises over a transport

    The facade talks to the server through [axios.post] only. The server
    and the network are an oracle [transport]: given the response type the
    caller declared ([post<T>]), the requests issued so far and the new
    request, it answers with a response carrying a [T] or fails with the
    error axios rejects with. A promise is a computation over that oracle
    which threads the log of issued requests: the log is the transport call
    counter of the specification. *)

Module Promise.

Variant Value :=
  | VUndefined
  | VBool (b : bool)
  | VNum (z : Z)
  | VStr (s : string).

Record Request := { req_url : string; req_body : gmap string Value }.

Record Response (T : Type) := mkResponse {
  data : T;
  status : Z;
  statusText : string;
  headers : gmap string string
}.
Arguments mkResponse {T}.
Arguments data {T}.
Arguments status {T}.
Arguments statusText {T}.
Arguments headers {T}.

(** [Object.assign(res, { data: d })] and [{ ...res, data: d }]. *)
Definition with_data {A B} (res : Response A) (d : B) : Response B :=
  mkResponse d (status res) (statusText res) (headers res).

Record AxiosError := { axios_message : string; axios_status : option Z }.

Variant Failure :=
  | NoImplementedError (message : string)
  | ArgumentError (message : string)
  | UnexpectedError (message : string)
  | TransportError (e : AxiosError).

(** The response types the facade declares in [post<T>]. *)
Inductive RespTy :=
  | TEmpty
  | TUserDetail
  | TNote
  | TRelation
  | TList
  | TFollower
  | TFollowRequest
  | TFavorite
  | TMute
  | TBlocking
  | TArray (t : RespTy).

Fixpoint denote (t : RespTy) : Type :=
  match t with
  | TEmpty => unit
  | TUserDetail => MisskeyEntity.UserDetail
  | TNote => MisskeyEntity.Note
  | TRelation => MisskeyEntity.Relation
  | TList => MisskeyEntity.List
  | TFollower => MisskeyEntity.Follower
  | TFollowRequest => MisskeyEntity.FollowRequest
  | TFavorite => MisskeyEntity.Favorite
  | TMute => MisskeyEntity.Mute
  | TBlocking => MisskeyEntity.Blocking
  | TArray t' => list (denote t')
  end.

Definition Log := list Request.

Definition Transport :=
  forall T : RespTy, Log -> Request -> AxiosError + Response (denote T).

(** What one facade instance runs against: the constructor arguments
    [baseUrl] and [accessToken], the server behind axios, and the wall
    clock read when a response is converted. *)
Record Env := {
  baseUrl : string;
  accessToken : string;
  transport : Transport;
  clock : Log -> Z
}.

Definition Promise (A : Type) : Type := Env -> Log -> (Failure + A) * Log.

Definition resolve {A} (a : A) : Promise A := fun _ log => (inr a, log).

(** [new Promise((_, reject) => reject(err))], and a [throw]. *)
Definition reject {A} (err : Failure) : Promise A := fun _ log => (inl err, log).

(** [await p; k] and [p.then(k)] with [k] returning a promise. *)
Definition bind {A B} (p : Promise A) (k : A -> Promise B) : Promise B :=
  fun env log =>
    match p env log with
    | (inr a, log') => k a env log'
    | (inl err, log') => (inl err, log')
    end.

(** [p.then(f)] with a plain callback; the callback may read the clock. *)
Definition then_ {A B} (p : Promise A) (f : Z -> A -> B) : Promise B :=
  fun env log =>
    match p env log with
    | (inr a, log') => (inr (f (clock env log') a), log')
    | (inl err, log') => (inl err, log')
    end.

(** [Promise.all(ps)] over promises created one after the other: every
    request is issued, in the order of creation, whatever becomes of the
    others; the results come in that order; a failure of one member fails
    the whole. The failure reported is that of the earliest failing member
    (the real one is that of the member failing first in time). *)
Fixpoint all {A} (ps : list (Promise A)) : Promise (list A) :=
  fun env log =>
    match ps with
    | [] => (inr [], log)
    | p :: ps' =>
        let '(r, log') := p env log in
        let '(rs, log'') := all ps' env log' in
        match r, rs with
        | inl err, _ => (inl err, log'')
        | inr _, inl err => (inl err, log'')
        | inr a, inr l => (inr (a :: l), log'')
        end
    end.

#[global] Instance promise_ret : MRet Promise := @resolve.
#[global] Instance promise_bind : MBind Promise := fun A B k p => bind p k.

(** An object literal [{ k1: v1, ... }]: a later key overrides an
    earlier one. *)
Definition object (kvs : list (string * Value)) : gmap string Value :=
  foldl (fun o kv => <[kv.1 := kv.2]> o) ∅ kvs.

(** [Object.assign(target, source)]: the keys of [source] are written
    into [target]. *)
Definition assign (target source : gmap string Value) : gmap string Value :=
  source ∪ target.

(** [MisskeyAPI.Client.post]: the access token is added to the body
    under the key [i], and the body is posted to [baseUrl + path]. *)
Definition post (T : RespTy) (path : string) (params : gmap string Value)
  : Promise (Response (denote T)) :=
  fun env log =>
    let bodyParams := assign params (object [("i", VStr (accessToken env))]) in
    let req := {| req_url := baseUrl env +:+ path; req_body := bodyParams |} in
    match transport env T log req with
    | inr res => (inr res, log ++ [req])
    | inl err => (inl (TransportError err), log ++ [req])
    end.

(** The requests a promise issues when started on an empty log. *)
Definition requests_of {A} (p : Promise A) (env : Env) : Log := snd (p env []).

End Promise.

(** ** The client facade (class [Misskey])

    The methods below are the operations Misskey lacks, the two-step
    relationship operations, the paginated listings, the operations that
    take an array, and the poll vote; then the other supported operations
    whose requests and answers the transport of the model can carry. The
    body of [postStatus] follows in a module of its own. Left out are the
    application registration and token exchange, [reblogStatus] and the
    media uploads. *)

Module Misskey.
Import Promise.
Module E := MegalodonEntity.
Module M := MisskeyEntity.

(** [a[0]]: [undefined] on the empty array. *)
Definition first {A} (inj : A -> Value) (a : list A) : Value :=
  match a with
  | x :: _ => inj x
  | [] => VUndefined
  end.

Variant FilterContext := ctx_home | ctx_notifications | ctx_public | ctx_thread.
Variant MarkerTimeline := tl_home | tl_notifications.

(** [OAuth.TokenData], by the arguments of its constructor. *)
Record TokenData := {
  token_access_token : string;
  token_type : string;
  token_scope : string;
  token_created_at : Z;
  token_expires_in : option Z;
  token_refresh_token : option string
}.

(** An argument that is left out ([undefined]), [null] or given, for the
    tests of the source that tell the first two apart ([x !== null]). *)
Variant Optional (A : Type) :=
  | Undefined
  | Null
  | Given (a : A).
Arguments Undefined {A}.
Arguments Null {A}.
Arguments Given {A}.

(** The value an argument has when it is written into a body. *)
Definition optional_value {A} (inj : A -> Value) (x : Optional A) : Value :=
  match x with
  | Given a => inj a
  | _ => VUndefined
  end.

(** The [source] argument of [pudateCredentials]. *)
Record Source := {
  source_privacy : option string;
  source_sensitive : option bool;
  source_language : option string
}.

Section Facade.
Variable moment_parse : string -> option Z.

(** *** apps *)

Definition verifyAppCredentials : Promise (Response E.Application) :=
  reject (NoImplementedError "misskey does not support").

Definition refreshToken (_client_id _client_secret _refresh_token : string)
  : Promise TokenData :=
  reject (NoImplementedError "misskey does not support").

Definition revokeToken (_client_id _client_secret _token : string)
  : Promise (Response unit) :=
  reject (NoImplementedError "misskey does not support").

(** *** accounts *)

Definition registerAccount (_username _email _password : string) (_agreement : bool)
    (_locale : string) (_reason : option string) : Promise (Response E.Token) :=
  reject (NoImplementedError "misskey does not support").

Definition getAccount (id : string) : Promise (Response E.Account) :=
  then_ (post TUserDetail "/api/users/show" (object [("userId", VStr id)]))
        (fun _ res => with_data res (Converter.userDetail (data res))).

Definition getAccountFavourites (_id : string) (_limit : option Z)
    (_max_id _since_id : option string) : Promise (Response (list E.Status)) :=
  reject (NoImplementedError "misskey does not support").

Definition subscribeAccount (_id : string) : Promise (Response E.Relationship) :=
  reject (NoImplementedError "misskey does not support").

Definition unsubscribeAccount (_id : string) : Promise (Response E.Relationship) :=
  reject (NoImplementedError "misskey does not support").

Definition getAccountFollowers (id : string) (limit : option Z)
    (_max_id _since_id : option string) : Promise (Response (list E.Account)) :=
  let params := object [("userId", VStr id)] in
  let params :=
    match truthy_number limit with
    | Some limit => assign params (object [("limit", VNum limit)])
    | None => params
    end in
  then_ (post (TArray TFollower) "/api/users/followers" params)
        (fun _ res => with_data res (map Converter.follower (data res))).

Definition getAccountFollowing (id : string) (limit : option Z)
    (_max_id _since_id : option string) : Promise (Response (list E.Account)) :=
  let params := object [("userId", VStr id)] in
  let params :=
    match truthy_number limit with
    | Some limit => assign params (object [("limit", VNum limit)])
    | None => params
    end in
  then_ (post (TArray TFollower) "/api/users/following" params)
        (fun _ res => with_data res (map Converter.follower (data res))).

Definition getAccountLists (_id : string) : Promise (Response (list E.List)) :=
  reject (NoImplementedError "misskey does not support").

Definition getIdentityProof (_id : string) : Promise (Response (list E.IdentityProof)) :=
  reject (NoImplementedError "misskey does not support").

Definition followAccount (id : string) (_reblog : bool) : Promise (Response E.Relationship) :=
  _ ← post TEmpty "api/following/create" (object [("userId", VStr id)]);
  then_ (post TRelation "/api/users/relation" (object [("userId", VStr id)]))
        (fun _ res => with_data res (Converter.relation (data res))).

Definition unfollowAccount (id : string) : Promise (Response E.Relationship) :=
  _ ← post TEmpty "api/following/delete" (object [("userId", VStr id)]);
  then_ (post TRelation "/api/users/relation" (object [("userId", VStr id)]))
        (fun _ res => with_data res (Converter.relation (data res))).

Definition blockAccount (id : string) : Promise (Response E.Relationship) :=
  _ ← post TEmpty "api/blocking/create" (object [("userId", VStr id)]);
  then_ (post TRelation "/api/users/relation" (object [("userId", VStr id)]))
        (fun _ res => with_data res (Converter.relation (data res))).

Definition unblockAccount (id : string) : Promise (Response E.Relationship) :=
  _ ← post TEmpty "api/blocking/delete" (object [("userId", VStr id)]);
  then_ (post TRelation "/api/users/relation" (object [("userId", VStr id)]))
        (fun _ res => with_data res (Converter.relation (data res))).

Definition muteAccount (id : string) (_notifications : bool)
  : Promise (Response E.Relationship) :=
  _ ← post TEmpty "api/mute/create" (object [("userId", VStr id)]);
  then_ (post TRelation "/api/users/relation" (object [("userId", VStr id)]))
        (fun _ res => with_data res (Converter.relation (data res))).

Definition unmuteAccount (id : string) : Promise (Response E.Relationship) :=
  _ ← post TEmpty "api/mute/delete" (object [("userId", VStr id)]);
  then_ (post TRelation "/api/users/relation" (object [("userId", VStr id)]))
        (fun _ res => with_data res (Converter.relation (data res))).

Definition pinAccount (_id : string) : Promise (Response E.Relationship) :=
  reject (NoImplementedError "misskey does not support").

Definition unpinAccount (_id : string) : Promise (Response E.Relationship) :=
  reject (NoImplementedError "misskey does not support").

Definition getRelationship (ids : list string) : Promise (Response E.Relationship) :=
  then_ (post TRelation "/api/users/relation" (object [("userId", first VStr ids)]))
        (fun _ res => with_data res (Converter.relation (data res))).

Definition searchAccount (q : string) (limit : option Z)
    (_max_id _since_id : option string) : Promise (Response (list E.Account)) :=
  let params := object [("query", VStr q)] in
  let params :=
    match truthy_number limit with
    | Some limit => assign params (object [("limit", VNum limit)])
    | None => params
    end in
  then_ (post (TArray TUserDetail) "/api/users/search" params)
        (fun _ res => with_data res (map Converter.userDetail (data res))).
(** *** accounts/bookmarks, favourites, mutes, blocks *)

Definition getBookmarks (_limit : option Z) (_max_id _since_id _min_id : option string)
  : Promise (Response (list E.Status)) :=
  reject (NoImplementedError "misskey does not support").

Definition getFavourites (limit : option Z) (max_id min_id : option string)
  : Promise (Response (list E.Status)) :=
  let params := ∅ in
  let params :=
    match truthy_number limit with
    | Some limit => assign params (object [("limit", VNum limit)])
    | None => params
    end in
  let params :=
    match truthy_string max_id with
    | Some max_id => assign params (object [("untilId", VStr max_id)])
    | None => params
    end in
  let params :=
    match truthy_string min_id with
    | Some min_id => assign params (object [("sinceId", VStr min_id)])
    | None => params
    end in
  then_ (post (TArray TFavorite) "/api/i/favorites" params)
        (fun now res => with_data res (map (fun fav => Converter.note moment_parse now (M.fav_note fav)) (data res))).

Definition getMutes (limit : option Z) (max_id min_id : option string)
  : Promise (Response (list E.Account)) :=
  let params := ∅ in
  let params :=
    match truthy_number limit with
    | Some limit => assign params (object [("limit", VNum limit)])
    | None => params
    end in
  let params :=
    match truthy_string max_id with
    | Some max_id => assign params (object [("untilId", VStr max_id)])
    | None => params
    end in
  let params :=
    match truthy_string min_id with
    | Some min_id => assign params (object [("sinceId", VStr min_id)])
    | None => params
    end in
  then_ (post (TArray TMute) "/api/mute/list" params)
        (fun _ res => with_data res (map (fun mute => Converter.userDetail (M.mute_mutee mute)) (data res))).

Definition getBlocks (limit : option Z) (max_id min_id : option string)
  : Promise (Response (list E.Account)) :=
  let params := ∅ in
  let params :=
    match truthy_number limit with
    | Some limit => assign params (object [("limit", VNum limit)])
    | None => params
    end in
  let params :=
    match truthy_string max_id with
    | Some max_id => assign params (object [("untilId", VStr max_id)])
    | None => params
    end in
  let params :=
    match truthy_string min_id with
    | Some min_id => assign params (object [("sinceId", VStr min_id)])
    | None => params
    end in
  then_ (post (TArray TBlocking) "/api/blocking/list" params)
        (fun _ res => with_data res (map (fun blocking => Converter.userDetail (M.blocking_blockee blocking)) (data res))).

(** *** accounts/domain_blocks, filters *)

Definition getDomainBlocks (_limit : option Z) (_max_id _min_id : option string)
  : Promise (Response (list string)) :=
  reject (NoImplementedError "misskey does not support").

Definition blockDomain (_domain : string)
  : Promise (Response unit) :=
  reject (NoImplementedError "misskey does not support").

Definition unblockDomain (_domain : string)
  : Promise (Response unit) :=
  reject (NoImplementedError "misskey does not support").

Definition getFilters
  : Promise (Response (list E.Filter)) :=
  reject (NoImplementedError "misskey does not support").

Definition getFilter (_id : string)
  : Promise (Response E.Filter) :=
  reject (NoImplementedError "misskey does not support").

Definition createFilter (_phrase : string) (_context : list FilterContext)
    (_irreversible _whole_word : option bool) (_expires_in : option string)
  : Promise (Response E.Filter) :=
  reject (NoImplementedError "misskey does not support").

Definition updateFilter (_id _phrase : string) (_context : list FilterContext)
    (_irreversible _whole_word : option bool) (_expires_in : option string)
  : Promise (Response E.Filter) :=
  reject (NoImplementedError "misskey does not support").

Definition deleteFilter (_id : string)
  : Promise (Response E.Filter) :=
  reject (NoImplementedError "misskey does not support").

(** *** accounts/follow_requests *)

Definition getFollowRequests (_limit : option Z) : Promise (Response (list E.Account)) :=
  then_ (post (TArray TFollowRequest) "/api/folllowing/requests/list" ∅)
        (fun _ res => with_data res (map (fun r => Converter.user (M.fr_follower r)) (data res))).

Definition acceptFollowRequest (id : string) : Promise (Response E.Relationship) :=
  _ ← post TEmpty "/api/following/requests/accept" (object [("userId", VStr id)]);
  then_ (post TRelation "/api/users/relation" (object [("userId", VStr id)]))
        (fun _ res => with_data res (Converter.relation (data res))).

Definition rejectFollowRequest (id : string) : Promise (Response E.Relationship) :=
  _ ← post TEmpty "/api/following/requests/reject" (object [("userId", VStr id)]);
  then_ (post TRelation "/api/users/relation" (object [("userId", VStr id)]))
        (fun _ res => with_data res (Converter.relation (data res))).

(** *** accounts/endorsements, featured_tags, preferences, suggestions *)

Definition getEndorsements (_limit : option Z) (_max_id _since_id : option string)
  : Promise (Response (list E.Account)) :=
  reject (NoImplementedError "misskey does not support").

Definition getFeaturedTags
  : Promise (Response (list E.FeaturedTag)) :=
  reject (NoImplementedError "misskey does not support").

Definition createFeaturedTag (_name : string)
  : Promise (Response E.FeaturedTag) :=
  reject (NoImplementedError "misskey does not support").

Definition deleteFeaturedTag (_id : string)
  : Promise (Response unit) :=
  reject (NoImplementedError "misskey does not support").

Definition getSuggestedTags
  : Promise (Response (list E.Tag)) :=
  reject (NoImplementedError "misskey does not support").

Definition getPreferences
  : Promise (Response E.Preferences) :=
  reject (NoImplementedError "misskey does not support").

Definition getSuggestions (limit : option Z) : Promise (Response (list E.Account)) :=
  let params := ∅ in
  let params :=
    match truthy_number limit with
    | Some limit => assign params (object [("limit", VNum limit)])
    | None => params
    end in
  then_ (post (TArray TUserDetail) "/api/users/recommendation" params)
        (fun _ res => with_data res (map Converter.userDetail (data res))).

(** *** statuses *)

Definition getStatusFavouritedBy (_id : string)
  : Promise (Response (list E.Account)) :=
  reject (NoImplementedError "misskey does not support").

Definition bookmarkStatus (_id : string)
  : Promise (Response E.Status) :=
  reject (NoImplementedError "misskey does not support").

Definition unbookmarkStatus (_id : string)
  : Promise (Response E.Status) :=
  reject (NoImplementedError "misskey does not support").

Definition muteStatus (_id : string)
  : Promise (Response E.Status) :=
  reject (NoImplementedError "misskey does not support").

Definition unmuteStatus (_id : string)
  : Promise (Response E.Status) :=
  reject (NoImplementedError "misskey does not support").

(** *** statuses/polls *)

Definition getPoll (_id : string)
  : Promise (Response E.Poll) :=
  reject (NoImplementedError "misskey does not support").

Definition votePoll (_id : string) (choices : list Z) (status_id : option string)
  : Promise (Response E.Poll) :=
  match truthy_string status_id with
  | None => reject (ArgumentError "status_id is required")
  | Some status_id =>
      let params := object [("noteId", VStr status_id); ("choice", first VNum choices)] in
      _ ← post TEmpty "/api/notes/polls/vote" params;
      res ← then_ (post TNote "/api/notes/show" (object [("noteId", VStr status_id)]))
                  (fun now res =>
                     let note := Converter.note moment_parse now (data res) in
                     with_data res (E.poll note));
      match data res with
      | None => reject (UnexpectedError "poll does not exist")
      | Some poll => resolve (with_data res poll)
      end
  end.

(** *** statuses/scheduled_statuses *)

Definition getScheduledStatuses (_limit : option Z) (_max_id _since_id _min_id : option string)
  : Promise (Response (list E.ScheduledStatus)) :=
  reject (NoImplementedError "misskey does not support").

Definition getScheduledStatus (_id : string)
  : Promise (Response E.ScheduledStatus) :=
  reject (NoImplementedError "misskey does not support").

Definition scheduleStatus (_id : string) (_scheduled_at : option string)
  : Promise (Response E.ScheduledStatus) :=
  reject (NoImplementedError "misskey does not support").

Definition cancelScheduledStatus (_id : string)
  : Promise (Response unit) :=
  reject (NoImplementedError "misskey does not support").

(** *** timelines *)

Definition getPublicTimeline (only_media : option bool) (limit : option Z)
    (max_id since_id _min_id : option string)
  : Promise (Response (list E.Status)) :=
  let params := ∅ in
  let params :=
    match truthy_bool only_media with
    | Some only_media => assign params (object [("withFiles", VBool only_media)])
    | None => params
    end in
  let params :=
    match truthy_number limit with
    | Some limit => assign params (object [("limit", VNum limit)])
    | None => params
    end in
  let params :=
    match truthy_string max_id with
    | Some max_id => assign params (object [("untilId", VStr max_id)])
    | None => params
    end in
  let params :=
    match truthy_string since_id with
    | Some since_id => assign params (object [("sinceId", VStr since_id)])
    | None => params
    end in
  then_ (post (TArray TNote) "/api/notes/global-timeline" params)
        (fun now res => with_data res (map (Converter.note moment_parse now) (data res))).

Definition getLocalTimeline (only_media : option bool) (limit : option Z)
    (max_id since_id _min_id : option string)
  : Promise (Response (list E.Status)) :=
  let params := ∅ in
  let params :=
    match truthy_bool only_media with
    | Some only_media => assign params (object [("withFiles", VBool only_media)])
    | None => params
    end in
  let params :=
    match truthy_number limit with
    | Some limit => assign params (object [("limit", VNum limit)])
    | None => params
    end in
  let params :=
    match truthy_string max_id with
    | Some max_id => assign params (object [("untilId", VStr max_id)])
    | None => params
    end in
  let params :=
    match truthy_string since_id with
    | Some since_id => assign params (object [("sinceId", VStr since_id)])
    | None => params
    end in
  then_ (post (TArray TNote) "/api/notes/local-timeline" params)
        (fun now res => with_data res (map (Converter.note moment_parse now) (data res))).

Definition getTagTimeline (hashtag : string) (_local only_media : option bool) (limit : option Z)
    (max_id since_id _min_id : option string)
  : Promise (Response (list E.Status)) :=
  let params := object [("tag", VStr hashtag)] in
  let params :=
    match truthy_bool only_media with
    | Some only_media => assign params (object [("withFiles", VBool only_media)])
    | None => params
    end in
  let params :=
    match truthy_number limit with
    | Some limit => assign params (object [("limit", VNum limit)])
    | None => params
    end in
  let params :=
    match truthy_string max_id with
    | Some max_id => assign params (object [("untilId", VStr max_id)])
    | None => params
    end in
  let params :=
    match truthy_string since_id with
    | Some since_id => assign params (object [("sinceId", VStr since_id)])
    | None => params
    end in
  then_ (post (TArray TNote) "/api/notes/search-by-tag" params)
        (fun now res => with_data res (map (Converter.note moment_parse now) (data res))).

Definition getHomeTimeline (_local : option bool) (limit : option Z)
    (max_id since_id _min_id : option string)
  : Promise (Response (list E.Status)) :=
  let params := object [("withFiles", VBool false)] in
  let params :=
    match truthy_number limit with
    | Some limit => assign params (object [("limit", VNum limit)])
    | None => params
    end in
  let params :=
    match truthy_string max_id with
    | Some max_id => assign params (object [("untilId", VStr max_id)])
    | None => params
    end in
  let params :=
    match truthy_string since_id with
    | Some since_id => assign params (object [("sinceId", VStr since_id)])
    | None => params
    end in
  then_ (post (TArray TNote) "/api/notes/timeline" params)
        (fun now res => with_data res (map (Converter.note moment_parse now) (data res))).

Definition getListTimeline (list_id : string) (limit : option Z)
    (max_id since_id _min_id : option string)
  : Promise (Response (list E.Status)) :=
  let params := object [("listId", VStr list_id); ("withFiles", VBool false)] in
  let params :=
    match truthy_number limit with
    | Some limit => assign params (object [("limit", VNum limit)])
    | None => params
    end in
  let params :=
    match truthy_string max_id with
    | Some max_id => assign params (object [("untilId", VStr max_id)])
    | None => params
    end in
  let params :=
    match truthy_string since_id with
    | Some since_id => assign params (object [("sinceId", VStr since_id)])
    | None => params
    end in
  then_ (post (TArray TNote) "/api/notes/user-list-timeline" params)
        (fun now res => with_data res (map (Converter.note moment_parse now) (data res))).

(** *** timelines/conversations *)

Definition getConversationTimeline (limit : option Z) (max_id since_id _min_id : option string)
  : Promise (Response (list E.Conversation)) :=
  let params := object [("visibility", VStr "specified")] in
  let params :=
    match truthy_number limit with
    | Some limit => assign params (object [("limit", VNum limit)])
    | None => params
    end in
  let params :=
    match truthy_string max_id with
    | Some max_id => assign params (object [("untilId", VStr max_id)])
    | None => params
    end in
  let params :=
    match truthy_string since_id with
    | Some since_id => assign params (object [("sinceId", VStr since_id)])
    | None => params
    end in
  then_ (post (TArray TNote) "/api/notes/mentions" params)
        (fun now res => with_data res (map (Converter.noteToConversation moment_parse now) (data res))).

Definition deleteConversation (_id : string)
  : Promise (Response unit) :=
  reject (NoImplementedError "misskey does not support").

Definition readConversation (_id : string)
  : Promise (Response E.Conversation) :=
  reject (NoImplementedError "misskey does not support").

(** *** timelines/lists *)

Definition getAccountsInList (id : string) (_limit : option Z)
    (_max_id _since_id : option string) : Promise (Response (list E.Account)) :=
  res ← post TList "/api/users/lists/show" (object [("listId", VStr id)]);
  let promise := map (fun userId => getAccount userId) (M.list_userIds (data res)) in
  accounts ← all promise;
  resolve (with_data res (map data accounts)).

Definition addAccountsToList (id : string) (account_ids : list string)
  : Promise (Response unit) :=
  post TEmpty "/api/users/lists/push"
       (object [("listId", VStr id); ("userId", first VStr account_ids)]).

Definition deleteAccountsFromList (id : string) (account_ids : list string)
  : Promise (Response unit) :=
  post TEmpty "/api/users/lists/pull"
       (object [("listId", VStr id); ("userId", first VStr account_ids)]).

(** *** timelines/markers *)

Definition getMarker (_timeline : list MarkerTimeline)
  : Promise (Response (option E.Marker)) :=
  reject (NoImplementedError "misskey does not support").

Definition saveMarker (_home _notifications : option string)
  : Promise (Response E.Marker) :=
  reject (NoImplementedError "misskey does not support").

(** *** The other supported operations *)

Definition verifyAccountCredentials : Promise (Response E.Account) :=
  then_ (post TUserDetail "/api/i" ∅)
        (fun _ res => with_data res (Converter.userDetail (data res))).

Definition pudateCredentials (_discoverable : option bool) (bot : Optional bool)
    (display_name note _avatar _header : option string) (locked : Optional bool)
    (source : option Source) (_fields_attributes : option (list (string * string)))
  : Promise (Response E.Account) :=
  let params := ∅ in
  let params :=
    match bot with
    | Null => params
    | _ => assign params (object [("isBot", optional_value VBool bot)])
    end in
  let params :=
    match truthy_string display_name with
    | Some display_name => assign params (object [("name", VStr display_name)])
    | None => params
    end in
  let params :=
    match truthy_string note with
    | Some note => assign params (object [("description", VStr note)])
    | None => params
    end in
  let params :=
    match locked with
    | Null => params
    | _ => assign params (object [("isLocked", optional_value VBool locked)])
    end in
  let params :=
    match source with
    | Some source =>
        let params :=
          match truthy_string (source_language source) with
          | Some language => assign params (object [("lang", VStr language)])
          | None => params
          end in
        match truthy_bool (source_sensitive source) with
        | Some sensitive => assign params (object [("alwaysMarkNsfw", VBool sensitive)])
        | None => params
        end
    | None => params
    end in
  then_ (post TUserDetail "/api/i" params)
        (fun _ res => with_data res (Converter.userDetail (data res))).

Definition getAccountStatuses (id : string) : Promise (Response (list E.Status)) :=
  then_ (post (TArray TNote) "/api/users/notes" (object [("userId", VStr id)]))
        (fun now res =>
           let statuses := map (fun note => Converter.note moment_parse now note) (data res) in
           with_data res statuses).

Definition report (account_id comment : string) (_status_ids : option (list string))
    (_forward : option bool) : Promise (Response E.Report) :=
  then_ (post TEmpty "/api/users/report-abuse"
           (object [("userId", VStr account_id); ("comment", VStr comment)]))
        (fun _ res =>
           with_data res
             {| E.report_id := "";
                E.action_taken := "";
                E.report_comment := comment;
                E.report_account_id := account_id;
                E.status_ids := [] |}).

Definition getStatus (id : string) : Promise (Response E.Status) :=
  then_ (post TNote "/api/notes/show" (object [("noteId", VStr id)]))
        (fun now res => with_data res (Converter.note moment_parse now (data res))).

Definition deleteStatus (id : string) : Promise (Response unit) :=
  post TEmpty "/api/notes/delete" (object [("noteId", VStr id)]).

Definition getStatusContext (id : string) : Promise (Response E.Context) :=
  then_ (post (TArray TNote) "/api/notes/children" (object [("noteId", VStr id)]))
        (fun now res =>
           let context :=
             {| E.ancestors := [];
                E.descendants := map (fun n => Converter.note moment_parse now n) (data res) |} in
           with_data res context).

Definition getStatusRebloggedBy (id : string) : Promise (Response (list E.Account)) :=
  then_ (post (TArray TNote) "/api/notes/renotes" (object [("noteId", VStr id)]))
        (fun _ res => with_data res (map (fun n => Converter.user (M.note_user n)) (data res))).

Definition favouriteStatus (id : string) : Promise (Response E.Status) :=
  _ ← post TEmpty "/api/notes/favorites/create" (object [("noteId", VStr id)]);
  then_ (post TNote "/api/notes/show" (object [("noteId", VStr id)]))
        (fun now res => with_data res (Converter.note moment_parse now (data res))).

Definition unfavouriteStatus (id : string) : Promise (Response E.Status) :=
  _ ← post TEmpty "/api/notes/favorites/delete" (object [("noteId", VStr id)]);
  then_ (post TNote "/api/notes/show" (object [("noteId", VStr id)]))
        (fun now res => with_data res (Converter.note moment_parse now (data res))).

Definition unreblogStatus (id : string) : Promise (Response E.Status) :=
  _ ← post TEmpty "/api/notes/unrenote" (object [("noteId", VStr id)]);
  then_ (post TNote "/api/notes/show" (object [("noteId", VStr id)]))
        (fun now res => with_data res (Converter.note moment_parse now (data res))).

Definition pinStatus (id : string) : Promise (Response E.Status) :=
  _ ← post TEmpty "/api/i/pin" (object [("noteId", VStr id)]);
  then_ (post TNote "/api/notes/show" (object [("noteId", VStr id)]))
        (fun now res => with_data res (Converter.note moment_parse now (data res))).

Definition unpinStatus (id : string) : Promise (Response E.Status) :=
  _ ← post TEmpty "/api/i/unpin" (object [("noteId", VStr id)]);
  then_ (post TNote "/api/notes/show" (object [("noteId", VStr id)]))
        (fun now res => with_data res (Converter.note moment_parse now (data res))).

Definition getLists : Promise (Response (list E.List)) :=
  then_ (post (TArray TList) "/api/users/lists/list" ∅)
        (fun _ res => with_data res (map (fun l => Converter.list l) (data res))).

Definition getList (id : string) : Promise (Response E.List) :=
  then_ (post TList "/api/users/lists/show" (object [("listId", VStr id)]))
        (fun _ res => with_data res (Converter.list (data res))).

Definition createList (title : string) : Promise (Response E.List) :=
  then_ (post TList "/api/users/lists/create" (object [("name", VStr title)]))
        (fun _ res => with_data res (Converter.list (data res))).

Definition updateList (id title : string) : Promise (Response E.List) :=
  then_ (post TList "/api/users/lists/update"
           (object [("listId", VStr id); ("name", VStr title)]))
        (fun _ res => with_data res (Converter.list (data res))).

Definition deleteList (id : string) : Promise (Response unit) :=
  post TEmpty "/api/users/lists/delete" (object [("listId", VStr id)]).

End Facade.

(** *** The operations by kind

    A call is a method together with its arguments; its index is the
    type the method promises. *)

Inductive UnsupportedCall : Type -> Type :=
  | call_verifyAppCredentials : UnsupportedCall (Response E.Application)
  | call_refreshToken (_client_id _client_secret _refresh_token : string)
    : UnsupportedCall TokenData
  | call_revokeToken (_client_id _client_secret _token : string)
    : UnsupportedCall (Response unit)
  | call_registerAccount (_username _email _password : string) (_agreement : bool)
      (_locale : string) (_reason : option string) : UnsupportedCall (Response E.Token)
  | call_getAccountFavourites (_id : string) (_limit : option Z)
      (_max_id _since_id : option string) : UnsupportedCall (Response (list E.Status))
  | call_subscribeAccount (_id : string) : UnsupportedCall (Response E.Relationship)
  | call_unsubscribeAccount (_id : string) : UnsupportedCall (Response E.Relationship)
  | call_getAccountLists (_id : string) : UnsupportedCall (Response (list E.List))
  | call_getIdentityProof (_id : string) : UnsupportedCall (Response (list E.IdentityProof))
  | call_pinAccount (_id : string) : UnsupportedCall (Response E.Relationship)
  | call_unpinAccount (_id : string) : UnsupportedCall (Response E.Relationship)
  | call_getBookmarks (_limit : option Z) (_max_id _since_id _min_id : option string)
    : UnsupportedCall (Response (list E.Status))
  | call_getDomainBlocks (_limit : option Z) (_max_id _min_id : option string)
    : UnsupportedCall (Response (list string))
  | call_blockDomain (_domain : string) : UnsupportedCall (Response unit)
  | call_unblockDomain (_domain : string) : UnsupportedCall (Response unit)
  | call_getFilters : UnsupportedCall (Response (list E.Filter))
  | call_getFilter (_id : string) : UnsupportedCall (Response E.Filter)
  | call_createFilter (_phrase : string) (_context : list FilterContext)
      (_irreversible _whole_word : option bool) (_expires_in : option string)
    : UnsupportedCall (Response E.Filter)
  | call_updateFilter (_id _phrase : string) (_context : list FilterContext)
      (_irreversible _whole_word : option bool) (_expires_in : option string)
    : UnsupportedCall (Response E.Filter)
  | call_deleteFilter (_id : string) : UnsupportedCall (Response E.Filter)
  | call_getEndorsements (_limit : option Z) (_max_id _since_id : option string)
    : UnsupportedCall (Response (list E.Account))
  | call_getFeaturedTags : UnsupportedCall (Response (list E.FeaturedTag))
  | call_createFeaturedTag (_name : string) : UnsupportedCall (Response E.FeaturedTag)
  | call_deleteFeaturedTag (_id : string) : UnsupportedCall (Response unit)
  | call_getSuggestedTags : UnsupportedCall (Response (list E.Tag))
  | call_getPreferences : UnsupportedCall (Response E.Preferences)
  | call_getStatusFavouritedBy (_id : string) : UnsupportedCall (Response (list E.Account))
  | call_bookmarkStatus (_id : string) : UnsupportedCall (Response E.Status)
  | call_unbookmarkStatus (_id : string) : UnsupportedCall (Response E.Status)
  | call_muteStatus (_id : string) : UnsupportedCall (Response E.Status)
  | call_unmuteStatus (_id : string) : UnsupportedCall (Response E.Status)
  | call_getPoll (_id : string) : UnsupportedCall (Response E.Poll)
  | call_getScheduledStatuses (_limit : option Z) (_max_id _since_id _min_id : option string)
    : UnsupportedCall (Response (list E.ScheduledStatus))
  | call_getScheduledStatus (_id : string) : UnsupportedCall (Response E.ScheduledStatus)
  | call_scheduleStatus (_id : string) (_scheduled_at : option string)
    : UnsupportedCall (Response E.ScheduledStatus)
  | call_cancelScheduledStatus (_id : string) : UnsupportedCall (Response unit)
  | call_deleteConversation (_id : string) : UnsupportedCall (Response unit)
  | call_readConversation (_id : string) : UnsupportedCall (Response E.Conversation)
  | call_getMarker (_timeline : list MarkerTimeline)
    : UnsupportedCall (Response (option E.Marker))
  | call_saveMarker (_home _notifications : option string)
    : UnsupportedCall (Response E.Marker).

Definition invoke_unsupported {R} (c : UnsupportedCall R) : Promise R :=
  match c with
  | call_verifyAppCredentials => verifyAppCredentials
  | call_refreshToken a b t => refreshToken a b t
  | call_revokeToken a b t => revokeToken a b t
  | call_registerAccount u e pw a l r => registerAccount u e pw a l r
  | call_getAccountFavourites i l m si => getAccountFavourites i l m si
  | call_subscribeAccount i => subscribeAccount i
  | call_unsubscribeAccount i => unsubscribeAccount i
  | call_getAccountLists i => getAccountLists i
  | call_getIdentityProof i => getIdentityProof i
  | call_pinAccount i => pinAccount i
  | call_unpinAccount i => unpinAccount i
  | call_getBookmarks l m si mi => getBookmarks l m si mi
  | call_getDomainBlocks l m mi => getDomainBlocks l m mi
  | call_blockDomain d => blockDomain d
  | call_unblockDomain d => unblockDomain d
  | call_getFilters => getFilters
  | call_getFilter i => getFilter i
  | call_createFilter ph c ir w ex => createFilter ph c ir w ex
  | call_updateFilter i ph c ir w ex => updateFilter i ph c ir w ex
  | call_deleteFilter i => deleteFilter i
  | call_getEndorsements l m si => getEndorsements l m si
  | call_getFeaturedTags => getFeaturedTags
  | call_createFeaturedTag n => createFeaturedTag n
  | call_deleteFeaturedTag i => deleteFeaturedTag i
  | call_getSuggestedTags => getSuggestedTags
  | call_getPreferences => getPreferences
  | call_getStatusFavouritedBy i => getStatusFavouritedBy i
  | call_bookmarkStatus i => bookmarkStatus i
  | call_unbookmarkStatus i => unbookmarkStatus i
  | call_muteStatus i => muteStatus i
  | call_unmuteStatus i => unmuteStatus i
  | call_getPoll i => getPoll i
  | call_getScheduledStatuses l m si mi => getScheduledStatuses l m si mi
  | call_getScheduledStatus i => getScheduledStatus i
  | call_scheduleStatus i at_ => scheduleStatus i at_
  | call_cancelScheduledStatus i => cancelScheduledStatus i
  | call_deleteConversation i => deleteConversation i
  | call_readConversation i => readConversation i
  | call_getMarker t => getMarker t
  | call_saveMarker h n => saveMarker h n
  end.

(** The operations made of two backend calls: the action, then the
    relationship it leads to. *)
Variant TwoStepCall :=
  | call_followAccount (id : string) (_reblog : bool)
  | call_unfollowAccount (id : string)
  | call_blockAccount (id : string)
  | call_unblockAccount (id : string)
  | call_muteAccount (id : string) (_notifications : bool)
  | call_unmuteAccount (id : string)
  | call_acceptFollowRequest (id : string)
  | call_rejectFollowRequest (id : string).

Definition invoke_two_step (c : TwoStepCall) : Promise (Response E.Relationship) :=
  match c with
  | call_followAccount id r => followAccount id r
  | call_unfollowAccount id => unfollowAccount id
  | call_blockAccount id => blockAccount id
  | call_unblockAccount id => unblockAccount id
  | call_muteAccount id n => muteAccount id n
  | call_unmuteAccount id => unmuteAccount id
  | call_acceptFollowRequest id => acceptFollowRequest id
  | call_rejectFollowRequest id => rejectFollowRequest id
  end.

(** The supported operations that take pagination parameters. *)
Inductive PaginatedCall : Type -> Type :=
  | call_getAccountFollowers (id : string) (limit : option Z)
      (_max_id _since_id : option string) : PaginatedCall (list E.Account)
  | call_getAccountFollowing (id : string) (limit : option Z)
      (_max_id _since_id : option string) : PaginatedCall (list E.Account)
  | call_searchAccount (q : string) (limit : option Z)
      (_max_id _since_id : option string) : PaginatedCall (list E.Account)
  | call_getFavourites (limit : option Z) (max_id min_id : option string)
    : PaginatedCall (list E.Status)
  | call_getMutes (limit : option Z) (max_id min_id : option string)
    : PaginatedCall (list E.Account)
  | call_getBlocks (limit : option Z) (max_id min_id : option string)
    : PaginatedCall (list E.Account)
  | call_getFollowRequests (_limit : option Z) : PaginatedCall (list E.Account)
  | call_getSuggestions (limit : option Z) : PaginatedCall (list E.Account)
  | call_getPublicTimeline (only_media : option bool) (limit : option Z)
      (max_id since_id _min_id : option string) : PaginatedCall (list E.Status)
  | call_getLocalTimeline (only_media : option bool) (limit : option Z)
      (max_id since_id _min_id : option string) : PaginatedCall (list E.Status)
  | call_getTagTimeline (hashtag : string) (_local only_media : option bool)
      (limit : option Z) (max_id since_id _min_id : option string)
    : PaginatedCall (list E.Status)
  | call_getHomeTimeline (_local : option bool) (limit : option Z)
      (max_id since_id _min_id : option string) : PaginatedCall (list E.Status)
  | call_getListTimeline (list_id : string) (limit : option Z)
      (max_id since_id _min_id : option string) : PaginatedCall (list E.Status)
  | call_getConversationTimeline (limit : option Z)
      (max_id since_id _min_id : option string) : PaginatedCall (list E.Conversation)
  | call_getAccountsInList (id : string) (_limit : option Z)
      (_max_id _since_id : option string) : PaginatedCall (list E.Account).

Definition invoke_paginated (moment_parse : string -> option Z) {R}
    (c : PaginatedCall R) : Promise (Response R) :=
  match c with
  | call_getAccountFollowers id l m s => getAccountFollowers id l m s
  | call_getAccountFollowing id l m s => getAccountFollowing id l m s
  | call_searchAccount q l m s => searchAccount q l m s
  | call_getFavourites l m mi => getFavourites moment_parse l m mi
  | call_getMutes l m mi => getMutes l m mi
  | call_getBlocks l m mi => getBlocks l m mi
  | call_getFollowRequests l => getFollowRequests l
  | call_getSuggestions l => getSuggestions l
  | call_getPublicTimeline o l m s mi => getPublicTimeline moment_parse o l m s mi
  | call_getLocalTimeline o l m s mi => getLocalTimeline moment_parse o l m s mi
  | call_getTagTimeline h lo o l m s mi => getTagTimeline moment_parse h lo o l m s mi
  | call_getHomeTimeline lo l m s mi => getHomeTimeline moment_parse lo l m s mi
  | call_getListTimeline li l m s mi => getListTimeline moment_parse li l m s mi
  | call_getConversationTimeline l m s mi => getConversationTimeline moment_parse l m s mi
  | call_getAccountsInList id l m s => getAccountsInList id l m s
  end.

(** What the caller supplied, per pagination parameter. *)
Definition supplied_limit {R} (c : PaginatedCall R) : option Z :=
  match c with
  | call_getAccountFollowers _ l _ _ | call_getAccountFollowing _ l _ _
  | call_searchAccount _ l _ _ | call_getFavourites l _ _ | call_getMutes l _ _
  | call_getBlocks l _ _ | call_getFollowRequests l | call_getSuggestions l
  | call_getPublicTimeline _ l _ _ _ | call_getLocalTimeline _ l _ _ _
  | call_getTagTimeline _ _ _ l _ _ _ | call_getHomeTimeline _ l _ _ _
  | call_getListTimeline _ l _ _ _ | call_getConversationTimeline l _ _ _
  | call_getAccountsInList _ l _ _ => l
  end.

Definition supplied_max_id {R} (c : PaginatedCall R) : option string :=
  match c with
  | call_getAccountFollowers _ _ m _ | call_getAccountFollowing _ _ m _
  | call_searchAccount _ _ m _ | call_getFavourites _ m _ | call_getMutes _ m _
  | call_getBlocks _ m _
  | call_getPublicTimeline _ _ m _ _ | call_getLocalTimeline _ _ m _ _
  | call_getTagTimeline _ _ _ _ m _ _ | call_getHomeTimeline _ _ m _ _
  | call_getListTimeline _ _ m _ _ | call_getConversationTimeline _ m _ _
  | call_getAccountsInList _ _ m _ => m
  | call_getFollowRequests _ | call_getSuggestions _ => None
  end.

Definition supplied_since_id {R} (c : PaginatedCall R) : option string :=
  match c with
  | call_getAccountFollowers _ _ _ s | call_getAccountFollowing _ _ _ s
  | call_searchAccount _ _ _ s
  | call_getPublicTimeline _ _ _ s _ | call_getLocalTimeline _ _ _ s _
  | call_getTagTimeline _ _ _ _ _ s _ | call_getHomeTimeline _ _ _ s _
  | call_getListTimeline _ _ _ s _ | call_getConversationTimeline _ _ s _
  | call_getAccountsInList _ _ _ s => s
  | call_getFavourites _ _ _ | call_getMutes _ _ _ | call_getBlocks _ _ _
  | call_getFollowRequests _ | call_getSuggestions _ => None
  end.

Definition supplied_min_id {R} (c : PaginatedCall R) : option string :=
  match c with
  | call_getFavourites _ _ mi | call_getMutes _ _ mi | call_getBlocks _ _ mi
  | call_getPublicTimeline _ _ _ _ mi | call_getLocalTimeline _ _ _ _ mi
  | call_getTagTimeline _ _ _ _ _ _ mi | call_getHomeTimeline _ _ _ _ mi
  | call_getListTimeline _ _ _ _ mi | call_getConversationTimeline _ _ _ mi => mi
  | call_getAccountFollowers _ _ _ _ | call_getAccountFollowing _ _ _ _
  | call_searchAccount _ _ _ _ | call_getFollowRequests _ | call_getSuggestions _
  | call_getAccountsInList _ _ _ _ => None
  end.

(** The other operations that issue one request. *)
Inductive SimpleCall : Type -> Type :=
  | call_getAccount (id : string) : SimpleCall E.Account
  | call_verifyAccountCredentials : SimpleCall E.Account
  | call_pudateCredentials (_discoverable : option bool) (bot : Optional bool)
      (display_name note _avatar _header : option string) (locked : Optional bool)
      (source : option Source) (_fields_attributes : option (list (string * string)))
    : SimpleCall E.Account
  | call_getAccountStatuses (id : string) : SimpleCall (list E.Status)
  | call_getRelationship (ids : list string) : SimpleCall E.Relationship
  | call_report (account_id comment : string) (_status_ids : option (list string))
      (_forward : option bool) : SimpleCall E.Report
  | call_getStatus (id : string) : SimpleCall E.Status
  | call_deleteStatus (id : string) : SimpleCall unit
  | call_getStatusContext (id : string) : SimpleCall E.Context
  | call_getStatusRebloggedBy (id : string) : SimpleCall (list E.Account)
  | call_getLists : SimpleCall (list E.List)
  | call_getList (id : string) : SimpleCall E.List
  | call_createList (title : string) : SimpleCall E.List
  | call_updateList (id title : string) : SimpleCall E.List
  | call_deleteList (id : string) : SimpleCall unit
  | call_addAccountsToList (id : string) (account_ids : list string) : SimpleCall unit
  | call_deleteAccountsFromList (id : string) (account_ids : list string) : SimpleCall unit.

Definition invoke_simple (moment_parse : string -> option Z) {R} (c : SimpleCall R)
  : Promise (Response R) :=
  match c with
  | call_getAccount id => getAccount id
  | call_verifyAccountCredentials => verifyAccountCredentials
  | call_pudateCredentials d b n nt a h l src f => pudateCredentials d b n nt a h l src f
  | call_getAccountStatuses id => getAccountStatuses moment_parse id
  | call_getRelationship ids => getRelationship ids
  | call_report a c s f => report a c s f
  | call_getStatus id => getStatus moment_parse id
  | call_deleteStatus id => deleteStatus id
  | call_getStatusContext id => getStatusContext moment_parse id
  | call_getStatusRebloggedBy id => getStatusRebloggedBy id
  | call_getLists => getLists
  | call_getList id => getList id
  | call_createList t => createList t
  | call_updateList id t => updateList id t
  | call_deleteList id => deleteList id
  | call_addAccountsToList id ids => addAccountsToList id ids
  | call_deleteAccountsFromList id ids => deleteAccountsFromList id ids
  end.

(** The status operations made of two backend calls: the action, then the
    note it acted on. *)
Variant StatusTwoStepCall :=
  | call_favouriteStatus (id : string)
  | call_unfavouriteStatus (id : string)
  | call_unreblogStatus (id : string)
  | call_pinStatus (id : string)
  | call_unpinStatus (id : string).

Definition invoke_status_two_step (moment_parse : string -> option Z)
    (c : StatusTwoStepCall) : Promise (Response E.Status) :=
  match c with
  | call_favouriteStatus id => favouriteStatus moment_parse id
  | call_unfavouriteStatus id => unfavouriteStatus moment_parse id
  | call_unreblogStatus id => unreblogStatus moment_parse id
  | call_pinStatus id => pinStatus moment_parse id
  | call_unpinStatus id => unpinStatus moment_parse id
  end.

End Misskey.

(** ** The body of [postStatus]

    [postStatus] sends an array and a nested object, and reads back a
    created note; its body is built here over values that nest, as the
    method builds it before posting it to [/api/notes/create]. *)

Module StatusParams.
Module E := MegalodonEntity.
Module M := MisskeyEntity.

#[local] Unset Elimination Schemes.
Inductive Json :=
  | JBool (b : bool)
  | JNum (z : Z)
  | JStr (s : string)
  | JArr (l : list Json)
  | JObj (o : gmap string Json).
#[local] Set Elimination Schemes.

Definition jobject (kvs : list (string * Json)) : gmap string Json :=
  foldl (fun o kv => <[kv.1 := kv.2]> o) ∅ kvs.

Definition jassign (target source : gmap string Json) : gmap string Json :=
  source ∪ target.

(** The [poll] argument of [postStatus]. *)
Record PollArg := {
  poll_options : list string;
  poll_expires_in : Z;
  poll_multiple : option bool;
  poll_hide_totals : option bool
}.

(** A Misskey visibility, as the string the body carries. *)
Definition visibility_name (v : M.Visibility) : string :=
  match v with
  | M.v_public => "public"
  | M.v_home => "home"
  | M.v_followers => "followers"
  | M.v_specified => "specified"
  end.

Definition postStatus_params (status : string) (media_ids : option (list string))
    (poll : option PollArg) (in_reply_to_id : option string) (sensitive : option bool)
    (spoiler_text : option string) (visibility : option E.Visibility)
    (_scheduled_at _language : option string) : gmap string Json :=
  let params := jobject [("text", JStr status)] in
  let params :=
    match media_ids with
    | Some media_ids => jassign params (jobject [("fileIds", JArr (map JStr media_ids))])
    | None => params
    end in
  let params :=
    match poll with
    | Some poll =>
        let pollParam :=
          jobject [("choices", JArr (map JStr (poll_options poll)));
                   ("expiresAt", JNum (poll_expires_in poll))] in
        let pollParam :=
          match truthy_bool (poll_multiple poll) with
          | Some multiple => jassign pollParam (jobject [("multiple", JBool multiple)])
          | None => pollParam
          end in
        jassign params (jobject [("poll", JObj pollParam)])
    | None => params
    end in
  let params :=
    match truthy_string in_reply_to_id with
    | Some in_reply_to_id => jassign params (jobject [("replyId", JStr in_reply_to_id)])
    | None => params
    end in
  let params :=
    match truthy_bool sensitive with
    | Some _ => jassign params (jobject [("cw", JStr "")])
    | None => params
    end in
  let params :=
    match truthy_string spoiler_text with
    | Some spoiler_text => jassign params (jobject [("cw", JStr spoiler_text)])
    | None => params
    end in
  let params :=
    match visibility with
    | Some visibility =>
        jassign params
          (jobject [("visibility", JStr (visibility_name (Converter.encodeVisibility visibility)))])
    | None => params
    end in
  params.

End StatusParams.

(** ** The arithmetic of JavaScript numbers

    A JavaScript number is an IEEE 754 double. On doubles that hold
    integers, [a + b] is the exact sum rounded to 53 significant bits,
    ties going to the even significand; below 2^53 in magnitude nothing is
    rounded. (A sum beyond the largest double, about 1.8e308, is
    [Infinity]: that is outside the model.) The converters above add in
    [Z]; what the rounding changes is stated with the definitions below. *)

Module JsNumber.

Definition round53 (z : Z) : Z :=
  let a := Z.abs z in
  if a <? 2 ^ 53 then z
  else
    let ulp := 2 ^ (Z.log2 a - 52) in
    let m := a / ulp in
    let rest := a mod ulp in
    let m' :=
      if 2 * rest <? ulp then m
      else if ulp <? 2 * rest then m + 1
      else if Z.even m then m else m + 1 in
    Z.sgn z * (m' * ulp).

Definition add (a b : Z) : Z := round53 (a + b).

(** [p.choices.reduce((sum, choice) => sum + choice.votes, 0)], as
    JavaScript computes it. *)
Definition reduce_votes (cs : list MisskeyEntity.Choice) : Z :=
  fold_left (fun sum choice => add sum (MisskeyEntity.choice_votes choice)) cs 0.

End JsNumber.

(** * Notions of the specification and sample data *)

Module Statements.
Import MisskeyEntity Promise Misskey.
Module E := MegalodonEntity.



(** A Misskey poll is addressed through its note ([votePoll] sends the
    note's id as [noteId]): the note's id is the identity the backend
    knows it by. Identity preservation, read for the poll of a note. *)
Definition poll_identity_preserved (moment_parse : string -> option Z) (now : Z)
    (n : Note) : Prop :=
  forall p, note_poll n = Some p ->
    E.poll_id (Converter.poll moment_parse now p) = note_id n.

(** Determinism as the specification words it, for a poll: two
    conversions, whenever they run, give identical entities. *)
Definition poll_converts_identically (moment_parse : string -> option Z) (p : Poll) : Prop :=
  forall now1 now2 : Z,
    Converter.poll moment_parse now1 p = Converter.poll moment_parse now2 p.

(** The same, for a status. *)
Definition note_converts_identically (moment_parse : string -> option Z) (n : Note) : Prop :=
  forall now1 now2 : Z,
    Converter.note moment_parse now1 n = Converter.note moment_parse now2 n.

(** Two clock readings are on the same side of the expiry of a poll. *)
Definition same_side (moment_parse : string -> option Z) (now1 now2 : Z) (p : Poll) : Prop :=
  Converter.isAfter now1 (moment_parse (poll_expiresAt p))
  = Converter.isAfter now2 (moment_parse (poll_expiresAt p)).

(** ... and of the expiry of every poll of a note and of the notes it
    renotes. *)
Fixpoint polls_same_side (moment_parse : string -> option Z) (now1 now2 : Z) (n : Note)
  : Prop :=
  match note_poll n with
  | Some p => same_side moment_parse now1 now2 p
  | None => True
  end /\
  match note_renote n with
  | Some r => polls_same_side moment_parse now1 now2 r
  | None => True
  end.

(** The request [client.post(path, params)] issues. *)
Definition sent (env : Env) (path : string) (params : gmap string Value) : Request :=
  {| req_url := baseUrl env +:+ path;
     req_body := <["i" := VStr (accessToken env)]> params |}.

(** The first and the second request of a two-step operation. *)
Definition action_path (c : TwoStepCall) : string :=
  match c with
  | call_followAccount _ _ => "api/following/create"
  | call_unfollowAccount _ => "api/following/delete"
  | call_blockAccount _ => "api/blocking/create"
  | call_unblockAccount _ => "api/blocking/delete"
  | call_muteAccount _ _ => "api/mute/create"
  | call_unmuteAccount _ => "api/mute/delete"
  | call_acceptFollowRequest _ => "/api/following/requests/accept"
  | call_rejectFollowRequest _ => "/api/following/requests/reject"
  end.

Definition target (c : TwoStepCall) : string :=
  match c with
  | call_followAccount id _ | call_unfollowAccount id | call_blockAccount id
  | call_unblockAccount id | call_muteAccount id _ | call_unmuteAccount id
  | call_acceptFollowRequest id | call_rejectFollowRequest id => id
  end.

Definition user_body (env : Env) (id : Value) : gmap string Value :=
  <["i" := VStr (accessToken env)]> (<["userId" := id]> ∅).

Definition first_request (c : TwoStepCall) (env : Env) : Request :=
  {| req_url := baseUrl env +:+ action_path c;
     req_body := user_body env (VStr (target c)) |}.

Definition second_request (c : TwoStepCall) (env : Env) : Request :=
  {| req_url := baseUrl env +:+ "/api/users/relation";
     req_body := user_body env (VStr (target c)) |}.

(** The request that casts a vote, and the requests that add or remove a
    list member. *)
Definition vote_request (env : Env) (status_id : string) (choice : Value) : Request :=
  {| req_url := baseUrl env +:+ "/api/notes/polls/vote";
     req_body :=
       <["i" := VStr (accessToken env)]>
         (<["choice" := choice]> (<["noteId" := VStr status_id]> ∅)) |}.

Definition list_member_request (env : Env) (path id : string) (member : Value) : Request :=
  {| req_url := baseUrl env +:+ path;
     req_body :=
       <["i" := VStr (accessToken env)]>
         (<["userId" := member]> (<["listId" := VStr id]> ∅)) |}.

Definition relation_request (env : Env) (id : Value) : Request :=
  {| req_url := baseUrl env +:+ "/api/users/relation"; req_body := user_body env id |}.

(** The pagination block shared by the listings: [limit], [untilId] and
    [sinceId] are written into the body, each under its own guard. *)
Definition paged (init : gmap string Value) (limit : option Z)
    (until since : option string) : gmap string Value :=
  let params := init in
  let params :=
    match truthy_number limit with
    | Some limit => assign params (object [("limit", VNum limit)])
    | None => params
    end in
  let params :=
    match truthy_string until with
    | Some max_id => assign params (object [("untilId", VStr max_id)])
    | None => params
    end in
  let params :=
    match truthy_string since with
    | Some since_id => assign params (object [("sinceId", VStr since_id)])
    | None => params
    end in
  params.

(** The optional [withFiles] flag of the timelines. *)
Definition with_files (init : gmap string Value) (only_media : option bool)
  : gmap string Value :=
  match truthy_bool only_media with
  | Some only_media => assign init (object [("withFiles", VBool only_media)])
  | None => init
  end.

(** The request that reads one account. *)
Definition account_request (env : Env) (id : string) : Request :=
  sent env "/api/users/show" (object [("userId", VStr id)]).

(** The pagination contract as the specification words it: in every
    request of a paginated call, a pagination key is present exactly when
    the caller supplied the parameter it encodes ([limit] for [limit],
    [untilId] for [max_id], [sinceId] for [since_id] and [min_id]). *)
Definition pagination_exact (moment_parse : string -> option Z) {R}
    (c : PaginatedCall R) (env : Env) : Prop :=
  forall r, r ∈ requests_of (invoke_paginated moment_parse c) env ->
    (is_Some (req_body r !! "limit") <-> is_Some (supplied_limit c)) /\
    (is_Some (req_body r !! "untilId") <-> is_Some (supplied_max_id c)) /\
    (is_Some (req_body r !! "sinceId")
       <-> is_Some (supplied_since_id c) \/ is_Some (supplied_min_id c)).

End Statements.

Module Samples.
Import MisskeyEntity Promise Misskey.

Definition choice_of (text : string) (votes : Z) : Choice :=
  {| choice_text := text; choice_votes := votes; choice_isVoted := false |}.

Definition poll_at_100 : Poll :=
  {| poll_expiresAt := "1970-01-01T00:00:00.100Z";
     poll_multiple := false;
     poll_choices := [choice_of "yes" 3; choice_of "no" 5; choice_of "maybe" 2] |}.

(** A poll whose first choice has 2^53 votes. *)
Definition poll_beyond_2_53 : Poll :=
  {| poll_expiresAt := "1970-01-01T00:00:00.100Z";
     poll_multiple := false;
     poll_choices :=
       [choice_of "yes" 9007199254740992; choice_of "no" 1; choice_of "maybe" 1] |}.

(** A stand-in for the parser of moment, on the one timestamp of the
    samples. *)
Definition parse_100 (s : string) : option Z :=
  if decide (s = "1970-01-01T00:00:00.100Z") then Some 100 else None.

Definition alice : User :=
  {| user_id := "7rkr3b1c1c"; user_name := "Alice"; user_username := "alice";
     user_host := Some "misskey.example"; user_avatarUrl := "https://misskey.example/a.png";
     user_avatarColor := "rgb(1,2,3)"; user_emojis := [] |}.

Definition plain_note : Note :=
  {| note_id := "9abc"; note_createdAt := "1970-01-01T00:00:00.000Z"; note_user := alice;
     note_text := Some "hello"; note_cw := None; note_visibility := v_home;
     note_renoteCount := 0; note_repliesCount := 0; note_emojis := [];
     note_files := None; note_replyId := None; note_reply := None;
     note_renote := None; note_poll := None |}.

Definition note_with_poll : Note :=
  {| note_id := "9abd"; note_createdAt := "1970-01-01T00:00:00.000Z"; note_user := alice;
     note_text := Some "which one?"; note_cw := None; note_visibility := v_public;
     note_renoteCount := 1; note_repliesCount := 0; note_emojis := [];
     note_files := None; note_replyId := None; note_reply := None;
     note_renote := Some plain_note; note_poll := Some poll_at_100 |}.

Definition network_error : AxiosError :=
  {| axios_message := "Network Error"; axios_status := None |}.

(** A server that cannot be reached. *)
Definition offline : Transport := fun _ _ _ => inl network_error.

(** A server that accepts the first request of a session, when it expects
    no data back, and cannot be reached afterwards. *)
Definition once : Transport :=
  fun T log _ =>
    match T as t return AxiosError + Response (denote t) with
    | TEmpty =>
        match log with
        | [] => inr (mkResponse tt 200 "OK" ∅)
        | _ => inl network_error
        end
    | _ => inl network_error
    end.

Definition env_of (t : Transport) : Env :=
  {| baseUrl := "https://misskey.io"; accessToken := "token";
     transport := t; clock := fun _ => 0 |}.

End Samples.

(** * Further notions *)

Module Notions.
Import MisskeyEntity Promise Misskey Statements.
Module E := MegalodonEntity.

(** The ids along the renote chain of a note, and along the reblog chain
    of a status, outermost first. *)
Fixpoint renote_ids (n : Note) : list string :=
  note_id n :: match note_renote n with Some r => renote_ids r | None => [] end.

Fixpoint reblog_ids (s : E.Status) : list string :=
  E.status_id s :: match E.reblog s with Some r => reblog_ids r | None => [] end.

(** A request that carries the access token of the instance. Nothing is
    said of where it goes: the URL is the base URL and the path of the
    method put end to end, and six paths have no leading slash. *)
Definition carries_token (env : Env) (r : Request) : Prop :=
  req_body r !! "i" = Some (VStr (accessToken env)).

(** A promise that only adds such requests to the log. *)
Definition authenticated {A} (p : Promise A) : Prop :=
  forall (env : Env) (log : Log),
    exists new : Log, snd (p env log) = log ++ new /\ Forall (carries_token env) new.

(** The requests of a two-step status operation. *)
Definition status_action_path (c : StatusTwoStepCall) : string :=
  match c with
  | call_favouriteStatus _ => "/api/notes/favorites/create"
  | call_unfavouriteStatus _ => "/api/notes/favorites/delete"
  | call_unreblogStatus _ => "/api/notes/unrenote"
  | call_pinStatus _ => "/api/i/pin"
  | call_unpinStatus _ => "/api/i/unpin"
  end.

Definition status_target (c : StatusTwoStepCall) : string :=
  match c with
  | call_favouriteStatus id | call_unfavouriteStatus id | call_unreblogStatus id
  | call_pinStatus id | call_unpinStatus id => id
  end.

Definition note_body (id : string) : gmap string Value := <["noteId" := VStr id]> ∅.

Definition action_request (c : StatusTwoStepCall) (env : Env) : Request :=
  sent env (status_action_path c) (note_body (status_target c)).

Definition show_request (env : Env) (id : string) : Request :=
  sent env "/api/notes/show" (note_body id).

(** The pagination arguments a listing reads. *)
Definition read_limit {R} (c : PaginatedCall R) : option Z :=
  match c with
  | call_getAccountFollowers _ l _ _ | call_getAccountFollowing _ l _ _
  | call_searchAccount _ l _ _ | call_getFavourites l _ _ | call_getMutes l _ _
  | call_getBlocks l _ _ | call_getSuggestions l
  | call_getPublicTimeline _ l _ _ _ | call_getLocalTimeline _ l _ _ _
  | call_getTagTimeline _ _ _ l _ _ _ | call_getHomeTimeline _ l _ _ _
  | call_getListTimeline _ l _ _ _ | call_getConversationTimeline l _ _ _ => l
  | call_getFollowRequests _ | call_getAccountsInList _ _ _ _ => None
  end.

Definition read_until {R} (c : PaginatedCall R) : option string :=
  match c with
  | call_getFavourites _ m _ | call_getMutes _ m _ | call_getBlocks _ m _
  | call_getPublicTimeline _ _ m _ _ | call_getLocalTimeline _ _ m _ _
  | call_getTagTimeline _ _ _ _ m _ _ | call_getHomeTimeline _ _ m _ _
  | call_getListTimeline _ _ m _ _ | call_getConversationTimeline _ m _ _ => m
  | call_getAccountFollowers _ _ _ _ | call_getAccountFollowing _ _ _ _
  | call_searchAccount _ _ _ _ | call_getFollowRequests _ | call_getSuggestions _
  | call_getAccountsInList _ _ _ _ => None
  end.

Definition read_since {R} (c : PaginatedCall R) : option string :=
  match c with
  | call_getFavourites _ _ mi | call_getMutes _ _ mi | call_getBlocks _ _ mi => mi
  | call_getPublicTimeline _ _ _ s _ | call_getLocalTimeline _ _ _ s _
  | call_getTagTimeline _ _ _ _ _ s _ | call_getHomeTimeline _ _ _ s _
  | call_getListTimeline _ _ _ s _ | call_getConversationTimeline _ _ s _ => s
  | call_getAccountFollowers _ _ _ _ | call_getAccountFollowing _ _ _ _
  | call_searchAccount _ _ _ _ | call_getFollowRequests _ | call_getSuggestions _
  | call_getAccountsInList _ _ _ _ => None
  end.

End Notions.

(** * Properties *)

(** ** Converters *)

Module ConverterFacts.
Import MisskeyEntity Statements Samples.
Module E := MegalodonEntity.



Example votes_3_5_2 (moment_parse : string -> option Z) (now : Z) (expiresAt : string)
    (multiple : bool) :
  E.votes_count
    (Converter.poll moment_parse now
       {| poll_expiresAt := expiresAt;
          poll_multiple := multiple;
          poll_choices := [choice_of "a" 3; choice_of "b" 5; choice_of "c" 2] |}) = 10.
Proof. reflexivity. Qed.

(** C2. The two visibility tables are inverse to each other: decoding an
    encoded unified visibility gives it back, for each of the four unified
    values, and encoding a decoded Misskey visibility gives it back, for
    each of the four Misskey values. *)
Theorem visibility_tables_inverse :
  (forall v : E.Visibility, Converter.visibility (Converter.encodeVisibility v) = v) /\
  (forall w : Visibility, Converter.encodeVisibility (Converter.visibility w) = w).
Proof. split; intros []; reflexivity. Qed.






Example reduce_votes_beyond_2_53 :
  JsNumber.reduce_votes (poll_choices poll_beyond_2_53) = 9007199254740992.
Proof. vm_compute. reflexivity. Qed.

(** C4. When the poll's [expiresAt] denotes an instant strictly before
    the clock reading of the conversion, the converted poll is expired;
    when it denotes an instant after that reading, it is not. *)
Theorem poll_expired_by_clock (moment_parse : string -> option Z) (now : Z) (p : Poll)
    (expire : Z) :
  moment_parse (poll_expiresAt p) = Some expire ->
  (expire < now -> E.expired (Converter.poll moment_parse now p) = true) /\
  (now < expire -> E.expired (Converter.poll moment_parse now p) = false).
Proof.
  intros Hparse. unfold Converter.poll; simpl. rewrite Hparse. simpl.
  split; intros Hlt.
  - apply bool_decide_eq_true. exact Hlt.
  - apply bool_decide_eq_false. lia.
Qed.

Lemma poll_expired_by_clock_witness :
  (E.expired (Converter.poll parse_100 150 poll_at_100) = true) /\
  (E.expired (Converter.poll parse_100 50 poll_at_100) = false).
Proof.
  split.
  - apply (poll_expired_by_clock parse_100 150 poll_at_100 100); [reflexivity | lia].
  - apply (poll_expired_by_clock parse_100 50 poll_at_100 100); [reflexivity | lia].
Defined.

(** *** Identity *)

Lemma poll_id_empty (moment_parse : string -> option Z) (now : Z) (p : Poll) :
  E.poll_id (Converter.poll moment_parse now p) = "".
Proof. reflexivity. Qed.

Lemma note_id_kept (moment_parse : string -> option Z) (now : Z) (n : Note) :
  E.status_id (Converter.note moment_parse now n) = note_id n.
Proof. destruct n; reflexivity. Qed.

Lemma note_reblog (moment_parse : string -> option Z) (now : Z) (n : Note) :
  E.reblog (Converter.note moment_parse now n)
  = Converter.note moment_parse now <$> note_renote n.
Proof. destruct n as [? ? ? ? ? ? ? ? ? ? ? ? [r|] ?]; reflexivity. Qed.

Lemma note_poll_converted (moment_parse : string -> option Z) (now : Z) (n : Note) :
  E.poll (Converter.note moment_parse now n)
  = Converter.poll moment_parse now <$> note_poll n.
Proof. destruct n as [? ? ? ? ? ? ? ? ? ? ? ? ? [p|]]; reflexivity. Qed.

(** C5, as the code has it. The unified account carries the native user's
    id, through both account converters; the unified status carries the
    native note's id, and so does the status of a renote nested in it and
    the account of its author; a unified poll, which has no native
    identifier to copy, carries the empty string. *)
Theorem converted_ids (moment_parse : string -> option Z) (now : Z) :
  (forall u : User, E.account_id (Converter.user u) = user_id u) /\
  (forall u : UserDetail, E.account_id (Converter.userDetail u) = ud_id u) /\
  (forall n : Note, E.status_id (Converter.note moment_parse now n) = note_id n) /\
  (forall n : Note,
     E.status_id <$> E.reblog (Converter.note moment_parse now n)
     = note_id <$> note_renote n) /\
  (forall n : Note,
     E.account_id (E.account (Converter.note moment_parse now n)) = user_id (note_user n)) /\
  (forall p : Poll, E.poll_id (Converter.poll moment_parse now p) = "").
Proof.
  repeat split.
  - intros n. apply note_id_kept.
  - intros n. rewrite note_reblog. destruct (note_renote n) as [r|]; simpl; [|reflexivity].
    now rewrite note_id_kept.
  - intros n. destruct n; reflexivity.
Qed.

(** C5 fails on polls: the poll of the sample note is known to the backend
    by the note's id, and its unified id is not that id. *)
Lemma poll_identity_lost : ~ poll_identity_preserved parse_100 150 note_with_poll.
Proof.
  intros H. specialize (H poll_at_100 eq_refl). rewrite poll_id_empty in H.
  discriminate H.
Qed.

(** *** Determinism *)

Lemma poll_same_side (moment_parse : string -> option Z) (now1 now2 : Z) (p : Poll) :
  same_side moment_parse now1 now2 p ->
  Converter.poll moment_parse now1 p = Converter.poll moment_parse now2 p.
Proof. unfold same_side, Converter.poll. intros ->. reflexivity. Qed.

Lemma note_same_side (moment_parse : string -> option Z) (now1 now2 : Z) :
  forall n : Note,
    polls_same_side moment_parse now1 now2 n ->
    Converter.note moment_parse now1 n = Converter.note moment_parse now2 n.
Proof.
  fix IH 1.
  intros [id createdAt u text cw vis renotes replies emojis files replyId reply renote pl].
  simpl. intros [Hpoll Hrenote]. f_equal.
  - destruct renote as [r|]; [|reflexivity]. f_equal. apply IH. exact Hrenote.
  - destruct pl as [p|]; [|reflexivity]. f_equal. apply poll_same_side. exact Hpoll.
Qed.

Lemma polls_same_side_refl (moment_parse : string -> option Z) (now : Z) :
  forall n : Note, polls_same_side moment_parse now now n.
Proof.
  fix IH 1.
  intros [id createdAt u text cw vis renotes replies emojis files replyId reply renote pl].
  simpl. split.
  - destruct pl; [reflexivity | exact I].
  - destruct renote as [r|]; [apply IH | exact I].
Qed.

(** C6, as the code has it. Two conversions of a poll agree on every
    field but [expired], and agree on [expired] too when both clock
    readings are on the same side of the expiry. Two conversions of a
    status agree when both clock readings are on the same side of the
    expiry of each poll in it; they always agree on the id and on the
    account, whose conversion reads no clock. *)
Theorem conversions_agree (moment_parse : string -> option Z) (now1 now2 : Z) :
  (forall p : Poll,
     let p1 := Converter.poll moment_parse now1 p in
     let p2 := Converter.poll moment_parse now2 p in
     E.poll_id p1 = E.poll_id p2 /\ E.expires_at p1 = E.expires_at p2 /\
     E.multiple p1 = E.multiple p2 /\ E.votes_count p1 = E.votes_count p2 /\
     E.options p1 = E.options p2 /\ E.voted p1 = E.voted p2) /\
  (forall p : Poll,
     same_side moment_parse now1 now2 p ->
     Converter.poll moment_parse now1 p = Converter.poll moment_parse now2 p) /\
  (forall n : Note,
     polls_same_side moment_parse now1 now2 n ->
     Converter.note moment_parse now1 n = Converter.note moment_parse now2 n) /\
  (forall n : Note,
     E.status_id (Converter.note moment_parse now1 n)
     = E.status_id (Converter.note moment_parse now2 n) /\
     E.account (Converter.note moment_parse now1 n)
     = E.account (Converter.note moment_parse now2 n)).
Proof.
  split; [|split; [|split]].
  - intros p. simpl. repeat split; reflexivity.
  - intros p. apply poll_same_side.
  - apply note_same_side.
  - intros n. destruct n; split; reflexivity.
Qed.

Lemma conversions_agree_witness :
  Converter.poll parse_100 150 poll_at_100 = Converter.poll parse_100 200 poll_at_100 /\
  Converter.note parse_100 150 note_with_poll = Converter.note parse_100 200 note_with_poll.
Proof.
  split.
  - apply (conversions_agree parse_100 150 200). reflexivity.
  - apply (conversions_agree parse_100 150 200). repeat split.
Defined.

(** C6 fails on polls: the sample poll converts to an open poll before its
    expiry and to an expired one after it. *)
Lemma poll_conversion_reads_clock : ~ poll_converts_identically parse_100 poll_at_100.
Proof. intros H. specialize (H 50 150). discriminate H. Qed.

Lemma note_conversion_reads_clock : ~ note_converts_identically parse_100 note_with_poll.
Proof. intros H. specialize (H 50 150). discriminate H. Qed.

End ConverterFacts.

(** ** Facade *)

Module FacadeFacts.
Import MisskeyEntity Promise Misskey Statements Samples Notions.
Module E := MegalodonEntity.

(** *** Request bodies *)

Lemma assign_object1 (m : gmap string Value) (k : string) (v : Value) :
  assign m (object [(k, v)]) = <[k := v]> m.
Proof.
  unfold assign, object. simpl.
  rewrite insert_empty. symmetry. apply insert_union_singleton_l.
Qed.

Lemma lookup_assign_object1 (m : gmap string Value) (k k' : string) (v : Value) :
  assign m (object [(k, v)]) !! k' = if decide (k = k') then Some v else m !! k'.
Proof. rewrite assign_object1. apply lookup_insert. Qed.

(** *** One request *)

Lemma post_run (T : RespTy) (path : string) (params : gmap string Value) (env : Env)
    (log : Log) :
  post T path params env log =
    (match transport env T log (sent env path params) with
     | inr res => inr res
     | inl err => inl (TransportError err)
     end,
     log ++ [sent env path params]).
Proof.
  unfold post, sent. rewrite assign_object1.
  destruct (transport env T log _); reflexivity.
Qed.

Lemma post_requests (T : RespTy) (path : string) (params : gmap string Value) (env : Env)
    (log : Log) :
  snd (post T path params env log) = log ++ [sent env path params].
Proof. now rewrite post_run. Qed.

Lemma then_requests {A B} (p : Promise A) (f : Z -> A -> B) (env : Env) (log : Log) :
  snd (then_ p f env log) = snd (p env log).
Proof. unfold then_. destruct (p env log) as [[err|a] log']; reflexivity. Qed.

(** C1. Every operation Misskey lacks, whatever its arguments, the server
    and the requests issued before, rejects with [NoImplementedError] and
    leaves the log of issued requests as it found it: it issues none. *)
Theorem unsupported_rejects_without_request :
  forall (R : Type) (c : UnsupportedCall R) (env : Env) (log : Log),
    invoke_unsupported c env log
    = (inl (NoImplementedError "misskey does not support"), log).
Proof. intros R c env log. destruct c; reflexivity. Qed.

Lemma unsupported_requests_none (R : Type) (c : UnsupportedCall R) (env : Env) :
  requests_of (invoke_unsupported c) env = [].
Proof. destruct c; reflexivity. Qed.

(** *** Two-step operations *)

Lemma two_step_unfold (c : TwoStepCall) :
  invoke_two_step c =
    bind (post TEmpty (action_path c) (object [("userId", VStr (target c))]))
         (fun _ =>
            then_ (post TRelation "/api/users/relation" (object [("userId", VStr (target c))]))
                  (fun _ res => with_data res (Converter.relation (data res)))).
Proof. destruct c; reflexivity. Qed.

Lemma two_step_run (c : TwoStepCall) (env : Env) (log : Log) :
  invoke_two_step c env log =
    match transport env TEmpty log (first_request c env) with
    | inl e => (inl (TransportError e), log ++ [first_request c env])
    | inr _ =>
        match transport env TRelation (log ++ [first_request c env]) (second_request c env) with
        | inl e =>
            (inl (TransportError e), log ++ [first_request c env; second_request c env])
        | inr res =>
            (inr (with_data res (Converter.relation (data res))),
             log ++ [first_request c env; second_request c env])
        end
    end.
Proof.
  rewrite two_step_unfold. unfold bind, then_. rewrite post_run.
  change (sent env (action_path c) (object [("userId", VStr (target c))]))
    with (first_request c env).
  destruct (transport env TEmpty log (first_request c env)) as [e|r1]; [reflexivity|].
  rewrite post_run.
  change (sent env "/api/users/relation" (object [("userId", VStr (target c))]))
    with (second_request c env).
  rewrite <- app_assoc. simpl.
  destruct (transport env TRelation _ (second_request c env)) as [e|res]; reflexivity.
Qed.

(** C7. In a two-step operation, a failure of the first call is the
    failure of the operation and the first request is the only one issued;
    when the first call succeeds and the second fails, the operation fails
    with the failure of the second call, both requests having been
    issued. *)
Theorem two_step_failures (c : TwoStepCall) (env : Env) (log : Log) :
  (forall e : AxiosError,
     transport env TEmpty log (first_request c env) = inl e ->
     invoke_two_step c env log
     = (inl (TransportError e), log ++ [first_request c env])) /\
  (forall (r1 : Response unit) (e : AxiosError),
     transport env TEmpty log (first_request c env) = inr r1 ->
     transport env TRelation (log ++ [first_request c env]) (second_request c env) = inl e ->
     invoke_two_step c env log
     = (inl (TransportError e), log ++ [first_request c env; second_request c env])).
Proof.
  split.
  - intros e H1. rewrite two_step_run, H1. reflexivity.
  - intros r1 e H1 H2. rewrite two_step_run, H1, H2. reflexivity.
Qed.

Lemma two_step_failures_witness :
  invoke_two_step (call_followAccount "7rkr3b1c1c" true) (env_of offline) []
  = (inl (TransportError network_error),
     [first_request (call_followAccount "7rkr3b1c1c" true) (env_of offline)]) /\
  invoke_two_step (call_blockAccount "7rkr3b1c1c") (env_of once) []
  = (inl (TransportError network_error),
     [first_request (call_blockAccount "7rkr3b1c1c") (env_of once);
      second_request (call_blockAccount "7rkr3b1c1c") (env_of once)]).
Proof.
  split.
  - apply (proj1 (two_step_failures (call_followAccount "7rkr3b1c1c" true) (env_of offline) [])).
    reflexivity.
  - apply (proj2 (two_step_failures (call_blockAccount "7rkr3b1c1c") (env_of once) [])
             (mkResponse tt 200 "OK" ∅)); reflexivity.
Defined.

Lemma two_step_success (c : TwoStepCall) (env : Env) (log : Log)
    (r1 : Response unit) (res : Response Relation) :
  transport env TEmpty log (first_request c env) = inr r1 ->
  transport env TRelation (log ++ [first_request c env]) (second_request c env) = inr res ->
  invoke_two_step c env log
  = (inr (with_data res (Converter.relation (data res))),
     log ++ [first_request c env; second_request c env]).
Proof. intros H1 H2. rewrite two_step_run, H1, H2. reflexivity. Qed.

(** *** The poll vote *)

Lemma truthy_string_Some (o : option string) (s : string) :
  truthy_string o = Some s <-> o = Some s /\ s ≠ "".
Proof.
  unfold truthy_string. destruct o as [s'|]; [|split; [discriminate | intros [H _]; discriminate]].
  destruct (decide (s' = "")) as [->|Hne]; split.
  - discriminate.
  - intros [[= <-] Hne]. contradiction.
  - intros [= <-]. split; [reflexivity | exact Hne].
  - intros [[= <-] _]. reflexivity.
Qed.

Lemma truthy_string_None (o : option string) :
  truthy_string o = None <-> o = None \/ o = Some "".
Proof.
  unfold truthy_string. destruct o as [s'|]; [|split; [now left | reflexivity]].
  destruct (decide (s' = "")) as [->|Hne]; split.
  - now right.
  - reflexivity.
  - discriminate.
  - intros [H|[= H]]; [discriminate | contradiction].
Qed.

Lemma truthy_number_Some (o : option Z) (z : Z) :
  truthy_number o = Some z <-> o = Some z /\ z ≠ 0.
Proof.
  unfold truthy_number. destruct o as [z'|]; [|split; [discriminate | intros [H _]; discriminate]].
  destruct (decide (z' = 0)) as [->|Hne]; split.
  - discriminate.
  - intros [[= <-] Hne]. contradiction.
  - intros [= <-]. split; [reflexivity | exact Hne].
  - intros [[= <-] _]. reflexivity.
Qed.

Lemma votePoll_run (moment_parse : string -> option Z) (_id : string) (choices : list Z)
    (sid : string) (env : Env) (log : Log) :
  sid ≠ "" ->
  exists (outcome : Failure + Response E.Poll) (rest : Log),
    votePoll moment_parse _id choices (Some sid) env log
    = (outcome, log ++ vote_request env sid (first VNum choices) :: rest).
Proof.
  intros Hne. unfold votePoll.
  assert (Htruthy : truthy_string (Some sid) = Some sid) by (apply truthy_string_Some; auto).
  rewrite Htruthy. unfold mbind, promise_bind, bind, then_.
  rewrite post_run.
  change (sent env "/api/notes/polls/vote"
            (object [("noteId", VStr sid); ("choice", first VNum choices)]))
    with (vote_request env sid (first VNum choices)).
  destruct (transport env TEmpty log _) as [e|r1].
  - exists (inl (TransportError e)), []. reflexivity.
  - rewrite post_run, <- app_assoc. simpl.
    destruct (transport env TNote _ _) as [e|res]; simpl.
    + eexists _, [_]. reflexivity.
    + destruct (E.poll _); eexists _, [_]; reflexivity.
Qed.

(** C8. Without the id of the owning status ([status_id] absent or
    empty), [votePoll] rejects with [ArgumentError] and issues no request;
    with it, the first request it issues is the vote, for that status. *)
Theorem votePoll_needs_status_id (moment_parse : string -> option Z) (_id : string)
    (choices : list Z) (status_id : option string) (env : Env) (log : Log) :
  (status_id = None \/ status_id = Some "" ->
   votePoll moment_parse _id choices status_id env log
   = (inl (ArgumentError "status_id is required"), log)) /\
  (forall sid : string,
     status_id = Some sid -> sid ≠ "" ->
     exists (outcome : Failure + Response E.Poll) (rest : Log),
       votePoll moment_parse _id choices status_id env log
       = (outcome, log ++ vote_request env sid (first VNum choices) :: rest)).
Proof.
  split.
  - intros H. apply truthy_string_None in H. unfold votePoll. rewrite H. reflexivity.
  - intros sid -> Hne. now apply votePoll_run.
Qed.

Lemma votePoll_needs_status_id_witness :
  votePoll parse_100 "" [1] (Some "") (env_of offline) []
  = (inl (ArgumentError "status_id is required"), []) /\
  exists (outcome : Failure + Response E.Poll) (rest : Log),
    votePoll parse_100 "" [1] (Some "9abd") (env_of offline) []
    = (outcome, [] ++ vote_request (env_of offline) "9abd" (VNum 1) :: rest).
Proof.
  split.
  - apply (proj1 (votePoll_needs_status_id parse_100 "" [1] (Some "") (env_of offline) [])).
    right. reflexivity.
  - apply (proj2 (votePoll_needs_status_id parse_100 "" [1] (Some "9abd") (env_of offline) [])
             "9abd"); [reflexivity | discriminate].
Defined.

(** *** Array arguments *)

Lemma then_post_requests {B} (T : RespTy) (path : string) (params : gmap string Value)
    (f : Z -> Response (denote T) -> B) (env : Env) :
  requests_of (then_ (post T path params) f) env = [sent env path params].
Proof. unfold requests_of. now rewrite then_requests, post_requests. Qed.

(** C10. An operation that takes an array reads its first element only:
    on an array with further elements it behaves, on every server, as on
    the array of the first element alone, and the one request it encodes
    carries that element. *)
Theorem array_arguments_first_only (moment_parse : string -> option Z) (env : Env)
    (log : Log) :
  (forall (a : string) (more : list string),
     getRelationship (a :: more) env log = getRelationship [a] env log /\
     requests_of (getRelationship (a :: more)) env = [relation_request env (VStr a)]) /\
  (forall (id a : string) (more : list string),
     addAccountsToList id (a :: more) env log = addAccountsToList id [a] env log /\
     requests_of (addAccountsToList id (a :: more)) env
     = [list_member_request env "/api/users/lists/push" id (VStr a)]) /\
  (forall (id a : string) (more : list string),
     deleteAccountsFromList id (a :: more) env log = deleteAccountsFromList id [a] env log /\
     requests_of (deleteAccountsFromList id (a :: more)) env
     = [list_member_request env "/api/users/lists/pull" id (VStr a)]) /\
  (forall (_id : string) (a : Z) (more : list Z) (status_id : option string),
     votePoll moment_parse _id (a :: more) status_id env log
     = votePoll moment_parse _id [a] status_id env log /\
     (forall sid : string, status_id = Some sid -> sid ≠ "" ->
        head (requests_of (votePoll moment_parse _id (a :: more) status_id) env)
        = Some (vote_request env sid (VNum a)))).
Proof.
  repeat split.
  - unfold getRelationship. now rewrite then_post_requests.
  - unfold requests_of, addAccountsToList. now rewrite (post_requests TEmpty).
  - unfold requests_of, deleteAccountsFromList. now rewrite (post_requests TEmpty).
  - intros sid -> Hne. unfold requests_of.
    destruct (votePoll_run moment_parse _id (a :: more) sid env [] Hne) as (o & rest & ->).
    reflexivity.
Qed.

Lemma array_arguments_first_only_witness :
  head (requests_of (votePoll parse_100 "" [1; 2] (Some "9abd")) (env_of offline))
  = Some (vote_request (env_of offline) "9abd" (VNum 1)).
Proof.
  apply (array_arguments_first_only parse_100 (env_of offline) [] ).
  - reflexivity.
  - discriminate.
Defined.

(** *** Pagination *)

Lemma paged_limit (init : gmap string Value) (limit : option Z) (until since : option string) :
  paged init limit until since !! "limit"
  = match truthy_number limit with Some z => Some (VNum z) | None => init !! "limit" end.
Proof.
  unfold paged.
  destruct (truthy_string since), (truthy_string until), (truthy_number limit);
    rewrite ?lookup_assign_object1; repeat case_decide; congruence.
Qed.

Lemma paged_untilId (init : gmap string Value) (limit : option Z) (until since : option string) :
  paged init limit until since !! "untilId"
  = match truthy_string until with Some s => Some (VStr s) | None => init !! "untilId" end.
Proof.
  unfold paged.
  destruct (truthy_string since), (truthy_string until), (truthy_number limit);
    rewrite ?lookup_assign_object1; repeat case_decide; congruence.
Qed.

Lemma paged_sinceId (init : gmap string Value) (limit : option Z) (until since : option string) :
  paged init limit until since !! "sinceId"
  = match truthy_string since with Some s => Some (VStr s) | None => init !! "sinceId" end.
Proof.
  unfold paged.
  destruct (truthy_string since), (truthy_string until), (truthy_number limit);
    rewrite ?lookup_assign_object1; repeat case_decide; congruence.
Qed.

Lemma all_getAccount_requests (ids : list string) (env : Env) (log : Log) :
  snd (all (map getAccount ids) env log) = log ++ map (account_request env) ids.
Proof.
  revert log. induction ids as [|id ids IH]; intros log; simpl.
  - now rewrite app_nil_r.
  - pose proof (then_requests (post TUserDetail "/api/users/show" (object [("userId", VStr id)]))
                  (fun _ res => with_data res (Converter.userDetail (data res))) env log) as Hone.
    rewrite (post_requests TUserDetail) in Hone. unfold getAccount at 1.
    destruct (then_ _ _ env log) as [r log'] eqn:E1. simpl in Hone. subst log'.
    specialize (IH (log ++ [sent env "/api/users/show" (object [("userId", VStr id)])])).
    destruct (all (map getAccount ids) env _) as [rs log''] eqn:E2. simpl in IH. subst log''.
    rewrite <- app_assoc. simpl.
    destruct r as [e|a]; [reflexivity|]. destruct rs as [e|l]; reflexivity.
Qed.

Lemma getAccountsInList_requests (id : string) (l : option Z) (m s : option string)
    (env : Env) :
  exists ids : list string,
    requests_of (getAccountsInList id l m s) env
    = sent env "/api/users/lists/show" (object [("listId", VStr id)])
      :: map (account_request env) ids.
Proof.
  unfold requests_of, getAccountsInList, mbind, promise_bind, bind.
  rewrite (post_run TList). simpl.
  destruct (transport env TList [] _) as [e|res].
  - exists []. reflexivity.
  - exists (list_userIds (data res)).
    pose proof (all_getAccount_requests (list_userIds (data res)) env
                  [sent env "/api/users/lists/show" (object [("listId", VStr id)])]) as Hall.
    destruct (all _ env _) as [[e|accounts] log'] eqn:E; simpl in Hall; subst log'; reflexivity.
Qed.

(** The bodies of the three listings the contract is drawn from: each key
    is there exactly when its guard lets the argument through. *)
Lemma getFavourites_request (moment_parse : string -> option Z) (limit : option Z)
    (max_id min_id : option string) (env : Env) :
  requests_of (getFavourites moment_parse limit max_id min_id) env
  = [sent env "/api/i/favorites" (paged ∅ limit max_id min_id)].
Proof. unfold getFavourites. now rewrite then_post_requests. Qed.

Lemma getHomeTimeline_request (moment_parse : string -> option Z) (_local : option bool)
    (limit : option Z) (max_id since_id _min_id : option string) (env : Env) :
  requests_of (getHomeTimeline moment_parse _local limit max_id since_id _min_id) env
  = [sent env "/api/notes/timeline"
       (paged (object [("withFiles", VBool false)]) limit max_id since_id)].
Proof. unfold getHomeTimeline. now rewrite then_post_requests. Qed.

Lemma getConversationTimeline_request (moment_parse : string -> option Z)
    (limit : option Z) (max_id since_id _min_id : option string) (env : Env) :
  requests_of (getConversationTimeline moment_parse limit max_id since_id _min_id) env
  = [sent env "/api/notes/mentions"
       (paged (object [("visibility", VStr "specified")]) limit max_id since_id)].
Proof. unfold getConversationTimeline. now rewrite then_post_requests. Qed.

Lemma sent_paged_exact (env : Env) (path : string) (init : gmap string Value)
    (limit : option Z) (until since : option string) :
  init !! "limit" = None -> init !! "untilId" = None -> init !! "sinceId" = None ->
  let body := req_body (sent env path (paged init limit until since)) in
  body !! "limit" = VNum <$> truthy_number limit /\
  body !! "untilId" = VStr <$> truthy_string until /\
  body !! "sinceId" = VStr <$> truthy_string since.
Proof.
  intros Hl Hu Hs. unfold sent. cbn [req_body].
  rewrite !lookup_insert_ne by discriminate.
  rewrite paged_limit, paged_untilId, paged_sinceId, Hl, Hu, Hs.
  destruct (truthy_number limit), (truthy_string until), (truthy_string since);
    repeat split.
Qed.

Ltac init_fresh :=
  unfold with_files; try destruct (truthy_bool _); rewrite ?assign_object1;
  vm_compute; reflexivity.

Ltac one_listing env path init l u s :=
  rewrite then_post_requests;
  split; [discriminate|];
  split; [auto|]; split; [auto|]; split; [auto|];
  let r := fresh "r" in
  let Hr := fresh "Hr" in
  intros r Hr; apply list_elem_of_singleton in Hr; subst r;
  exact (sent_paged_exact env path init l u s
           ltac:(init_fresh) ltac:(init_fresh) ltac:(init_fresh)).

(** C9, as the code has it. A paginated operation issues at least one
    request. Of the pagination arguments of the caller it reads the ones
    the tables [read_limit], [read_until] and [read_since] give: each is
    an argument the caller supplied under that name ([min_id] serving as
    the lower bound for favourites, mutes and blocks), or none where the
    method ignores the parameter. In every request it issues, [limit] is
    there exactly when the limit read is not zero, [untilId] exactly when
    the [max_id] read is not empty, [sinceId] exactly when the [since_id]
    or [min_id] read is not empty, each with the value as supplied; a
    parameter left out, and a parameter the method ignores, are never
    encoded, with a default or otherwise. *)
Theorem pagination_keys_exactly_read (moment_parse : string -> option Z) (R : Type)
    (c : PaginatedCall R) (env : Env) :
  requests_of (invoke_paginated moment_parse c) env ≠ [] /\
  (read_limit c = None \/ read_limit c = supplied_limit c) /\
  (read_until c = None \/ read_until c = supplied_max_id c) /\
  (read_since c = None \/ read_since c = supplied_since_id c
   \/ read_since c = supplied_min_id c) /\
  forall r : Request,
    r ∈ requests_of (invoke_paginated moment_parse c) env ->
    req_body r !! "limit" = VNum <$> truthy_number (read_limit c) /\
    req_body r !! "untilId" = VStr <$> truthy_string (read_until c) /\
    req_body r !! "sinceId" = VStr <$> truthy_string (read_since c).
Proof.
  destruct c as
    [ id limit m s | id limit m s | q limit m s
    | limit max_id min_id | limit max_id min_id | limit max_id min_id
    | l | limit
    | only_media limit max_id since_id mi | only_media limit max_id since_id mi
    | hashtag lo only_media limit max_id since_id mi
    | lo limit max_id since_id mi | lid limit max_id since_id mi
    | limit max_id since_id mi | id l m s ];
    cbn [invoke_paginated read_limit read_until read_since
         supplied_limit supplied_max_id supplied_since_id supplied_min_id].
  - unfold getAccountFollowers.
    one_listing env "/api/users/followers" (object [("userId", VStr id)])
      limit (@None string) (@None string).
  - unfold getAccountFollowing.
    one_listing env "/api/users/following" (object [("userId", VStr id)])
      limit (@None string) (@None string).
  - unfold searchAccount.
    one_listing env "/api/users/search" (object [("query", VStr q)])
      limit (@None string) (@None string).
  - unfold getFavourites.
    one_listing env "/api/i/favorites" (∅ : gmap string Value) limit max_id min_id.
  - unfold getMutes.
    one_listing env "/api/mute/list" (∅ : gmap string Value) limit max_id min_id.
  - unfold getBlocks.
    one_listing env "/api/blocking/list" (∅ : gmap string Value) limit max_id min_id.
  - unfold getFollowRequests.
    one_listing env "/api/folllowing/requests/list" (∅ : gmap string Value)
      (@None Z) (@None string) (@None string).
  - unfold getSuggestions.
    one_listing env "/api/users/recommendation" (∅ : gmap string Value)
      limit (@None string) (@None string).
  - unfold getPublicTimeline.
    one_listing env "/api/notes/global-timeline" (with_files ∅ only_media)
      limit max_id since_id.
  - unfold getLocalTimeline.
    one_listing env "/api/notes/local-timeline" (with_files ∅ only_media)
      limit max_id since_id.
  - unfold getTagTimeline.
    one_listing env "/api/notes/search-by-tag"
      (with_files (object [("tag", VStr hashtag)]) only_media) limit max_id since_id.
  - unfold getHomeTimeline.
    one_listing env "/api/notes/timeline" (object [("withFiles", VBool false)])
      limit max_id since_id.
  - unfold getListTimeline.
    one_listing env "/api/notes/user-list-timeline"
      (object [("listId", VStr lid); ("withFiles", VBool false)]) limit max_id since_id.
  - unfold getConversationTimeline.
    one_listing env "/api/notes/mentions" (object [("visibility", VStr "specified")])
      limit max_id since_id.
  - destruct (getAccountsInList_requests id l m s env) as [ids ->].
    split; [discriminate|].
    split; [auto|]. split; [auto|]. split; [auto|].
    intros r Hr. apply elem_of_cons in Hr as [->|Hr].
    + repeat split; vm_compute; reflexivity.
    + apply list_elem_of_fmap in Hr as (uid & -> & _).
      repeat split; vm_compute; reflexivity.
Qed.

Lemma pagination_keys_exactly_read_witness :
  let r := sent (env_of offline) "/api/notes/timeline"
             (paged (object [("withFiles", VBool false)]) (Some 20) (Some "9abd") None) in
  req_body r !! "limit" = Some (VNum 20) /\
  req_body r !! "untilId" = Some (VStr "9abd") /\
  req_body r !! "sinceId" = None.
Proof.
  apply (pagination_keys_exactly_read parse_100 _
           (call_getHomeTimeline None (Some 20) (Some "9abd") None (Some "9abc"))
           (env_of offline)).
  apply list_elem_of_here.
Defined.

(** C9 fails where a method ignores a parameter: [getHomeTimeline] given a
    [min_id] only sends no pagination key at all. *)
Lemma ignored_min_id_not_encoded :
  ~ pagination_exact parse_100
      (call_getHomeTimeline None None None None (Some "9abd")) (env_of offline).
Proof.
  intros H.
  destruct (H (sent (env_of offline) "/api/notes/timeline" (object [("withFiles", VBool false)])))
    as (_ & _ & Hsince).
  - apply list_elem_of_here.
  - destruct (proj2 Hsince) as [v Hv].
    + right. eexists. reflexivity.
    + vm_compute in Hv. discriminate Hv.
Qed.

(** ... and where the argument is falsy: a [limit] of zero is not sent. *)
Lemma zero_limit_not_encoded :
  ~ pagination_exact parse_100 (call_getFavourites (Some 0) None None) (env_of offline).
Proof.
  intros H.
  destruct (H (sent (env_of offline) "/api/i/favorites" ∅)) as (Hlimit & _).
  - apply list_elem_of_here.
  - destruct (proj2 Hlimit) as [v Hv].
    + eexists. reflexivity.
    + vm_compute in Hv. discriminate Hv.
Qed.

End FacadeFacts.

(** ** Converters, further *)

Module ConverterMore.
Import MisskeyEntity Statements Samples Notions.
Module E := MegalodonEntity.

Lemma append_self (s t : string) : s +:+ t = s -> t = "".
Proof. induction s as [|a s IH]; simpl; [auto | intros [= H]; auto]. Qed.

Lemma truthy_host (o : option string) :
  truthy_string o = None \/ exists h, o = Some h /\ h ≠ "" /\ truthy_string o = Some h.
Proof.
  destruct o as [h|]; [|now left]. simpl.
  destruct (decide (h = "")) as [->|Hne]; [now left | right; eauto].
Qed.

(** The handle of an account: the bare username for a local user (no
    host, or an empty one), and [username@host] otherwise, which is never
    the bare username. Both account converters agree on it, and the
    detailed one uses it as the account's url. *)
Theorem acct_qualified_by_host :
  (forall u : User,
     (E.acct (Converter.user u) = user_username u
      <-> user_host u = None \/ user_host u = Some "") /\
     (forall h, user_host u = Some h -> h ≠ "" ->
        E.acct (Converter.user u) = user_username u +:+ "@" +:+ h)) /\
  (forall u : UserDetail,
     (E.acct (Converter.userDetail u) = ud_username u
      <-> ud_host u = None \/ ud_host u = Some "") /\
     (forall h, ud_host u = Some h -> h ≠ "" ->
        E.acct (Converter.userDetail u) = ud_username u +:+ "@" +:+ h) /\
     E.account_url (Converter.userDetail u) = E.acct (Converter.userDetail u)).
Proof.
  split; intros u.
  - unfold Converter.user; cbn [E.acct].
    destruct (truthy_host (user_host u)) as [Hn | (h & Hh & Hne & Ht)].
    + rewrite Hn. split.
      * split; [intros _; destruct (user_host u) as [h|]; [|now left] | reflexivity].
        simpl in Hn. destruct (decide (h = "")) as [->|]; [now right | discriminate].
      * intros h Hh Hne. rewrite Hh in Hn. simpl in Hn.
        destruct (decide (h = "")); [contradiction | discriminate].
    + rewrite Ht. split.
      * split.
        -- intros H. apply append_self in H. discriminate.
        -- rewrite Hh. intros [H|[= H]]; [discriminate | contradiction].
      * intros h' Hh'. rewrite Hh in Hh'. injection Hh' as <-. reflexivity.
  - unfold Converter.userDetail; cbn [E.acct E.account_url].
    destruct (truthy_host (ud_host u)) as [Hn | (h & Hh & Hne & Ht)].
    + rewrite Hn. repeat split.
      * intros _. destruct (ud_host u) as [h|]; [|now left].
        simpl in Hn. destruct (decide (h = "")) as [->|]; [now right | discriminate].
      * intros h Hh Hne. rewrite Hh in Hn. simpl in Hn.
        destruct (decide (h = "")); [contradiction | discriminate].
    + rewrite Ht. repeat split.
      * intros H. apply append_self in H. discriminate.
      * rewrite Hh. intros [H|[= H]]; [discriminate | contradiction].
      * intros h' Hh'. rewrite Hh in Hh'. injection Hh' as <-. reflexivity.
Qed.

(** A status is sensitive exactly when one of the files of the note is;
    a note without a files array is not. Its attachments are the files,
    one for one and in order. *)
Theorem note_sensitive_by_files (moment_parse : string -> option Z) (now : Z) (n : Note) :
  (E.sensitive (Converter.note moment_parse now n) = true
   <-> exists fs f, note_files n = Some fs /\ f ∈ fs /\ file_isSensitive f = true) /\
  map E.attachment_id (E.media_attachments (Converter.note moment_parse now n))
  = map file_id (default [] (note_files n)).
Proof.
  destruct n as [id createdAt u text cw vis renotes replies emojis files replyId reply renote pl].
  cbn [Converter.note E.sensitive E.media_attachments note_files]. split.
  - destruct files as [fs|]; simpl.
    + rewrite existsb_exists. split.
      * intros (f & Hin & Hs). exists fs, f. rewrite list_elem_of_In. auto.
      * intros (fs' & f & [= <-] & Hin & Hs). exists f. rewrite <- list_elem_of_In. auto.
    + split; [discriminate | intros (fs & f & H & _); discriminate].
  - destruct files as [fs|]; simpl; [|reflexivity].
    rewrite map_map. reflexivity.
Qed.

(** Conversion keeps the renote chain: the converted status nests as many
    reblogs as the note nests renotes, with the same ids in the same
    order. *)
Theorem reblog_chain_kept (moment_parse : string -> option Z) (now : Z) :
  forall n : Note, reblog_ids (Converter.note moment_parse now n) = renote_ids n.
Proof.
  fix IH 1.
  intros [id createdAt u text cw vis renotes replies emojis files replyId reply renote pl].
  simpl. f_equal. destruct renote as [r|]; [apply IH | reflexivity].
Qed.

(** A converted poll is expired exactly when its [expiresAt] is a valid
    date strictly before the clock reading: not when the date is invalid,
    and not at the very instant of expiry. *)
Theorem poll_expired_iff (moment_parse : string -> option Z) (now : Z) (p : Poll) :
  E.expired (Converter.poll moment_parse now p) = true
  <-> exists expire : Z, moment_parse (poll_expiresAt p) = Some expire /\ expire < now.
Proof.
  unfold Converter.poll; cbn [E.expired]. unfold Converter.isAfter.
  destruct (moment_parse (poll_expiresAt p)) as [t|].
  - rewrite bool_decide_eq_true. split.
    + intros H. exists t. auto.
    + intros (t' & [= <-] & H). exact H.
  - split; [discriminate | intros (t & H & _); discriminate].
Qed.






(** The converted poll is marked as voted exactly when the caller voted
    for one of the choices. *)
Theorem poll_voted_iff (moment_parse : string -> option Z) (now : Z) (p : Poll) :
  E.voted (Converter.poll moment_parse now p) = true
  <-> exists c, c ∈ poll_choices p /\ choice_isVoted c = true.
Proof.
  unfold Converter.poll; cbn [E.voted]. rewrite existsb_exists.
  split; intros (c & Hin & Hv); exists c; [rewrite list_elem_of_In | rewrite <- list_elem_of_In];
    auto.
Qed.

(** A conversation made from a note has the note's id, which is also the
    id of its last status; its accounts are the author of the note,
    followed by the author of the note replied to when the note carries
    one, and nobody else. *)
Theorem conversation_of_note (moment_parse : string -> option Z) (now : Z) (n : Note) :
  let c := Converter.noteToConversation moment_parse now n in
  E.conversation_id c = note_id n /\
  E.conversation_id c = E.status_id (E.last_status c) /\
  map E.account_id (E.accounts c)
  = user_id (note_user n)
    :: match note_reply n with Some r => [user_id (note_user r)] | None => [] end.
Proof.
  destruct n as [id createdAt u text cw vis renotes replies emojis files replyId reply renote pl].
  cbn. repeat split. destruct reply as [r|]; reflexivity.
Qed.

End ConverterMore.

(** ** Facade, further *)

Module FacadeMore.
Import MisskeyEntity Promise Misskey Statements Samples Notions FacadeFacts.
Module E := MegalodonEntity.

(** *** The request primitive *)

(** [client.post] issues exactly one request, whether the server answers
    or not: to the base URL followed by the path, with the access token
    under [i] (a key [i] of the caller's is overwritten) and every other
    parameter as the caller gave it. The server's answer is handed on as
    it is, its failure too. *)
Theorem post_one_request (T : RespTy) (path : string) (params : gmap string Value)
    (env : Env) (log : Log) :
  exists r : Request,
    snd (post T path params env log) = log ++ [r] /\
    req_url r = baseUrl env +:+ path /\
    req_body r !! "i" = Some (VStr (accessToken env)) /\
    (forall k : string, k ≠ "i" -> req_body r !! k = params !! k) /\
    fst (post T path params env log)
    = match transport env T log r with
      | inr res => inr res
      | inl err => inl (TransportError err)
      end.
Proof.
  exists (sent env path params). rewrite post_run. cbn [fst snd sent req_url req_body].
  repeat split.
  - apply lookup_insert_eq.
  - intros k Hk. now apply lookup_insert_ne.
Qed.

(** *** Every request carries the token *)

Lemma auth_resolve {A} (a : A) : authenticated (resolve a).
Proof. intros env log. exists []. split; [symmetry; apply app_nil_r | constructor]. Qed.

Lemma auth_reject {A} (e : Failure) : authenticated (@reject A e).
Proof. intros env log. exists []. split; [symmetry; apply app_nil_r | constructor]. Qed.

Lemma sent_carries_token (env : Env) (path : string) (params : gmap string Value) :
  carries_token env (sent env path params).
Proof. apply lookup_insert_eq. Qed.

Lemma auth_post (T : RespTy) (path : string) (params : gmap string Value) :
  authenticated (post T path params).
Proof.
  intros env log. exists [sent env path params]. rewrite post_run. split; [reflexivity|].
  repeat constructor. apply lookup_insert_eq.
Qed.

Lemma auth_bind {A B} (p : Promise A) (k : A -> Promise B) :
  authenticated p -> (forall a, authenticated (k a)) -> authenticated (bind p k).
Proof.
  intros Hp Hk env log. unfold bind.
  destruct (Hp env log) as (new & Hlog & Hnew).
  destruct (p env log) as [[e|a] log']; simpl in Hlog; subst log'.
  - exists new. auto.
  - destruct (Hk a env (log ++ new)) as (new' & Hlog' & Hnew').
    exists (new ++ new'). rewrite Hlog', app_assoc. split; [reflexivity|].
    apply Forall_app. auto.
Qed.

Lemma auth_then {A B} (p : Promise A) (f : Z -> A -> B) :
  authenticated p -> authenticated (then_ p f).
Proof.
  intros Hp env log. destruct (Hp env log) as (new & Hlog & Hnew).
  exists new. rewrite then_requests. auto.
Qed.

Lemma auth_all {A} (ps : list (Promise A)) :
  Forall authenticated ps -> authenticated (all ps).
Proof.
  induction 1 as [|p ps Hp Hps IH]; intros env log; simpl.
  - exists []. split; [symmetry; apply app_nil_r | constructor].
  - destruct (Hp env log) as (new & Hlog & Hnew).
    destruct (p env log) as [r log']; simpl in Hlog; subst log'.
    destruct (IH env (log ++ new)) as (new' & Hlog' & Hnew').
    destruct (all ps env (log ++ new)) as [rs log'']; simpl in Hlog'; subst log''.
    exists (new ++ new'). split.
    + destruct r as [e|a]; [|destruct rs as [e|l]]; simpl; now rewrite app_assoc.
    + apply Forall_app. auto.
Qed.

Ltac auth :=
  cbv zeta; unfold mbind, promise_bind;
  repeat lazymatch goal with
    | |- authenticated (post ?T ?path ?params) => exact (auth_post T path params)
    | |- authenticated (reject _) => apply auth_reject
    | |- authenticated (resolve _) => apply auth_resolve
    | |- authenticated (then_ _ _) => apply auth_then
    | |- authenticated (bind _ _) => apply auth_bind
    | |- forall _, _ => intro
    end.

Lemma auth_getAccount (id : string) : authenticated (getAccount id).
Proof. unfold getAccount. auth. Qed.

(** Every request any operation of the facade issues carries the access
    token of the instance under [i]; the operation leaves the requests
    issued before it as they were. This
    holds for the operations Misskey lacks (they issue nothing), for the
    one-request operations, for both families of two-step operations, for
    the listings and for the poll vote. *)
Theorem every_request_authenticated (moment_parse : string -> option Z) :
  (forall R (c : UnsupportedCall R), authenticated (invoke_unsupported c)) /\
  (forall R (c : SimpleCall R), authenticated (invoke_simple moment_parse c)) /\
  (forall c : TwoStepCall, authenticated (invoke_two_step c)) /\
  (forall c : StatusTwoStepCall, authenticated (invoke_status_two_step moment_parse c)) /\
  (forall R (c : PaginatedCall R), authenticated (invoke_paginated moment_parse c)) /\
  (forall (_id : string) (choices : list Z) (status_id : option string),
     authenticated (votePoll moment_parse _id choices status_id)).
Proof.
  repeat split.
  - intros R c. destruct c; apply auth_reject.
  - intros R c. destruct c; cbn [invoke_simple];
      unfold getAccount, verifyAccountCredentials, pudateCredentials, getAccountStatuses,
        getRelationship, report, getStatus, deleteStatus, getStatusContext,
        getStatusRebloggedBy, getLists, getList, createList, updateList, deleteList,
        addAccountsToList, deleteAccountsFromList; auth.
  - intros c. destruct c; cbn [invoke_two_step];
      unfold followAccount, unfollowAccount, blockAccount, unblockAccount, muteAccount,
        unmuteAccount, acceptFollowRequest, rejectFollowRequest; auth.
  - intros c. destruct c; cbn [invoke_status_two_step];
      unfold favouriteStatus, unfavouriteStatus, unreblogStatus, pinStatus, unpinStatus; auth.
  - intros R c. destruct c; cbn [invoke_paginated];
      unfold getAccountFollowers, getAccountFollowing, searchAccount, getFavourites, getMutes,
        getBlocks, getFollowRequests, getSuggestions, getPublicTimeline, getLocalTimeline,
        getTagTimeline, getHomeTimeline, getListTimeline, getConversationTimeline,
        getAccountsInList; auth.
    apply auth_all. apply Forall_map. apply Forall_forall. intros uid _. apply auth_getAccount.
  - intros _id choices status_id. unfold votePoll.
    destruct (truthy_string status_id); auth.
    match goal with |- authenticated (match data ?r with _ => _ end) => destruct (data r) end;
      auth.
Qed.

(** *** Two-step status operations *)

Lemma status_two_step_unfold (moment_parse : string -> option Z) (c : StatusTwoStepCall) :
  invoke_status_two_step moment_parse c =
    bind (post TEmpty (status_action_path c) (object [("noteId", VStr (status_target c))]))
         (fun _ => getStatus moment_parse (status_target c)).
Proof. destruct c; reflexivity. Qed.

Lemma getStatus_run (moment_parse : string -> option Z) (id : string) (env : Env)
    (log : Log) :
  getStatus moment_parse id env log =
    match transport env TNote log (show_request env id) with
    | inl e => (inl (TransportError e), log ++ [show_request env id])
    | inr res =>
        (inr (with_data res
                (Converter.note moment_parse (clock env (log ++ [show_request env id]))
                   (data res))),
         log ++ [show_request env id])
    end.
Proof.
  unfold getStatus, then_. rewrite post_run.
  change (sent env "/api/notes/show" (object [("noteId", VStr id)]))
    with (show_request env id).
  destruct (transport env TNote log (show_request env id)); reflexivity.
Qed.

(** Favouriting, unfavouriting, unrenoting, pinning and unpinning a
    status: when the action fails, the operation fails with that failure
    and the note is never fetched; when the action succeeds and the fetch
    fails, the operation fails although the action took place; when both
    succeed, the result is the conversion of the fetched note, with the
    response data of the action playing no part. *)
Theorem status_two_step_outcomes (moment_parse : string -> option Z)
    (c : StatusTwoStepCall) (env : Env) (log : Log) :
  let r1 := action_request c env in
  let r2 := show_request env (status_target c) in
  (forall e : AxiosError,
     transport env TEmpty log r1 = inl e ->
     invoke_status_two_step moment_parse c env log = (inl (TransportError e), log ++ [r1])) /\
  (forall (a : Response unit) (e : AxiosError),
     transport env TEmpty log r1 = inr a ->
     transport env TNote (log ++ [r1]) r2 = inl e ->
     invoke_status_two_step moment_parse c env log
     = (inl (TransportError e), log ++ [r1; r2])) /\
  (forall (a : Response unit) (res : Response Note),
     transport env TEmpty log r1 = inr a ->
     transport env TNote (log ++ [r1]) r2 = inr res ->
     invoke_status_two_step moment_parse c env log
     = (inr (with_data res
               (Converter.note moment_parse (clock env (log ++ [r1; r2])) (data res))),
        log ++ [r1; r2])).
Proof.
  intros r1 r2. rewrite status_two_step_unfold. unfold bind. rewrite post_run.
  change (sent env (status_action_path c) (object [("noteId", VStr (status_target c))]))
    with r1.
  repeat split.
  - intros e ->. reflexivity.
  - intros a e -> H2. rewrite getStatus_run. fold r2. rewrite H2, <- app_assoc. reflexivity.
  - intros a res -> H2. rewrite getStatus_run. fold r2. rewrite H2, <- !app_assoc. reflexivity.
Qed.

Lemma status_two_step_outcomes_witness :
  invoke_status_two_step parse_100 (call_pinStatus "9abd") (env_of once) []
  = (inl (TransportError network_error),
     [action_request (call_pinStatus "9abd") (env_of once);
      show_request (env_of once) "9abd"]).
Proof.
  apply (proj1 (proj2 (status_two_step_outcomes parse_100 (call_pinStatus "9abd")
                         (env_of once) []))
           (mkResponse tt 200 "OK" ∅)); reflexivity.
Defined.

(** *** The poll vote, in full *)

(** With the id of its status, a vote goes through two requests. A
    failure of the vote ends the operation before the note is fetched. A
    failure of the fetch fails the operation after the vote was cast, and
    so does, with [UnexpectedError], a fetched note that carries no poll.
    Otherwise the result is the conversion of the poll of the fetched
    note; the poll id the caller passed is never used. *)
Theorem votePoll_outcomes (moment_parse : string -> option Z) (_id : string)
    (choices : list Z) (sid : string) (env : Env) (log : Log) :
  sid ≠ "" ->
  let r1 := vote_request env sid (first VNum choices) in
  let r2 := show_request env sid in
  votePoll moment_parse _id choices (Some sid) env log =
    match transport env TEmpty log r1 with
    | inl e => (inl (TransportError e), log ++ [r1])
    | inr _ =>
        match transport env TNote (log ++ [r1]) r2 with
        | inl e => (inl (TransportError e), log ++ [r1; r2])
        | inr res =>
            match note_poll (data res) with
            | None => (inl (UnexpectedError "poll does not exist"), log ++ [r1; r2])
            | Some p =>
                (inr (with_data res
                        (Converter.poll moment_parse (clock env (log ++ [r1; r2])) p)),
                 log ++ [r1; r2])
            end
        end
    end.
Proof.
  intros Hne r1 r2. unfold votePoll.
  assert (Htruthy : truthy_string (Some sid) = Some sid) by (apply truthy_string_Some; auto).
  rewrite Htruthy. unfold mbind, promise_bind, bind, then_. rewrite post_run.
  change (sent env "/api/notes/polls/vote"
            (object [("noteId", VStr sid); ("choice", first VNum choices)])) with r1.
  destruct (transport env TEmpty log r1) as [e|a]; [reflexivity|].
  rewrite post_run.
  change (sent env "/api/notes/show" (object [("noteId", VStr sid)])) with r2.
  rewrite <- app_assoc. cbn [app].
  destruct (transport env TNote (log ++ [r1]) r2) as [e|res]; [reflexivity|].
  cbn [data with_data]. rewrite ConverterFacts.note_poll_converted.
  destruct (note_poll (data res)) as [p|]; reflexivity.
Qed.

Lemma votePoll_outcomes_witness :
  votePoll parse_100 "ignored" [2] (Some "9abd") (env_of once) []
  = (inl (TransportError network_error),
     [vote_request (env_of once) "9abd" (VNum 2); show_request (env_of once) "9abd"]).
Proof.
  apply (votePoll_outcomes parse_100 "ignored" [2] "9abd" (env_of once) []).
  discriminate.
Defined.

(** *** Empty arrays *)

(** An empty array is not refused: the request is issued all the same,
    with [undefined] where the first element would have been. *)
Theorem empty_array_sent_as_undefined (moment_parse : string -> option Z) (env : Env) :
  requests_of (getRelationship []) env = [relation_request env VUndefined] /\
  (forall id : string,
     requests_of (addAccountsToList id []) env
     = [list_member_request env "/api/users/lists/push" id VUndefined]) /\
  (forall id : string,
     requests_of (deleteAccountsFromList id []) env
     = [list_member_request env "/api/users/lists/pull" id VUndefined]) /\
  (forall _id sid : string,
     sid ≠ "" ->
     head (requests_of (votePoll moment_parse _id [] (Some sid)) env)
     = Some (vote_request env sid VUndefined)).
Proof.
  repeat split.
  - unfold getRelationship. now rewrite then_post_requests.
  - intros id. unfold requests_of, addAccountsToList. now rewrite (post_requests TEmpty).
  - intros id. unfold requests_of, deleteAccountsFromList. now rewrite (post_requests TEmpty).
  - intros _id sid Hne. unfold requests_of.
    destruct (votePoll_run moment_parse _id [] sid env [] Hne) as (o & rest & ->).
    reflexivity.
Qed.

Lemma empty_array_sent_as_undefined_witness :
  head (requests_of (votePoll parse_100 "" [] (Some "9abd")) (env_of offline))
  = Some (vote_request (env_of offline) "9abd" VUndefined).
Proof.
  apply (empty_array_sent_as_undefined parse_100 (env_of offline)). discriminate.
Defined.

(** *** The members of a list *)

Lemma all_length {A} (ps : list (Promise A)) (env : Env) (log : Log) (l : list A) :
  fst (all ps env log) = inr l -> length l = length ps.
Proof.
  revert log l. induction ps as [|p ps IH]; intros log l; simpl.
  - intros [= <-]. reflexivity.
  - destruct (p env log) as [r log']. specialize (IH log').
    destruct (all ps env log') as [rs log'']. simpl in IH.
    destruct r as [e|a]; [discriminate|]. destruct rs as [e|l']; [discriminate|].
    simpl. intros [= <-]. simpl. f_equal. now apply IH.
Qed.

(** [getAccountsInList] first reads the list. If that fails, nothing else
    is asked. If it succeeds, every member of the list is asked for, one
    request per user id and in the order of the ids, whether or not the
    earlier ones succeed; and when the operation succeeds it returns one
    account per user id, under the status and headers of the response that
    carried the list. *)
Theorem getAccountsInList_outcomes (id : string) (_limit : option Z)
    (_max_id _since_id : option string) (env : Env) (log : Log) :
  let r0 := sent env "/api/users/lists/show" (object [("listId", VStr id)]) in
  (forall e : AxiosError,
     transport env TList log r0 = inl e ->
     getAccountsInList id _limit _max_id _since_id env log
     = (inl (TransportError e), log ++ [r0])) /\
  (forall res : Response List,
     transport env TList log r0 = inr res ->
     snd (getAccountsInList id _limit _max_id _since_id env log)
     = log ++ r0 :: map (account_request env) (list_userIds (data res)) /\
     forall out : Response (list E.Account),
       fst (getAccountsInList id _limit _max_id _since_id env log) = inr out ->
       length (data out) = length (list_userIds (data res)) /\
       status out = status res /\ statusText out = statusText res /\
       headers out = headers res).
Proof.
  intros r0. unfold getAccountsInList, mbind, promise_bind, bind.
  rewrite (post_run TList). fold r0. split.
  - intros e ->. reflexivity.
  - intros res ->.
    pose proof (all_getAccount_requests (list_userIds (data res)) env (log ++ [r0])) as Hreq.
    pose proof (all_length (map (fun userId => getAccount userId) (list_userIds (data res)))
                  env (log ++ [r0])) as Hlen.
    destruct (all _ env (log ++ [r0])) as [[e|accounts] log'] eqn:E;
      simpl in Hreq; subst log'; rewrite <- app_assoc; (split; [reflexivity|]).
    + intros out [=].
    + intros out [= <-]. simpl. rewrite length_map, (Hlen accounts eq_refl), length_map.
      repeat split.
Qed.

Lemma getAccountsInList_outcomes_witness :
  getAccountsInList "list1" None None None (env_of offline) []
  = (inl (TransportError network_error),
     [] ++ [sent (env_of offline) "/api/users/lists/show" (object [("listId", VStr "list1")])]).
Proof.
  apply (proj1 (getAccountsInList_outcomes "list1" None None None (env_of offline) [])).
  reflexivity.
Defined.

(** *** One-request operations *)

Ltac one_post env log :=
  lazymatch goal with
  | |- context [then_ (post ?T ?path ?params) ?f env log] =>
      exists T, (sent env path params); unfold then_; rewrite (post_run T);
      destruct (transport env T log (sent env path params)) as [?e|?res];
      cbn [fst snd]; (split; [reflexivity|]);
      [reflexivity | eexists; reflexivity]
  | |- context [post ?T ?path ?params env log] =>
      exists T, (sent env path params); rewrite (post_run T);
      let res := fresh "res" in
      destruct (transport env T log (sent env path params)) as [?e|res];
      cbn [fst snd]; (split; [reflexivity|]);
      [reflexivity | exists (data res); destruct res; reflexivity]
  end.

(** Each of these operations issues exactly one request, whatever the
    server does with it. When the server fails it, the operation fails with
    the failure of the server, unchanged; when the server answers, the
    operation succeeds with converted data under the status, status text
    and headers of the answer. *)
Theorem simple_call_one_request (moment_parse : string -> option Z) (R : Type)
    (c : SimpleCall R) (env : Env) (log : Log) :
  exists (T : RespTy) (r : Request),
    snd (invoke_simple moment_parse c env log) = log ++ [r] /\
    match transport env T log r with
    | inl e => fst (invoke_simple moment_parse c env log) = inl (TransportError e)
    | inr res =>
        exists d : R, fst (invoke_simple moment_parse c env log) = inr (with_data res d)
    end.
Proof.
  destruct c; cbn [invoke_simple];
    unfold getAccount, verifyAccountCredentials, pudateCredentials, getAccountStatuses,
      getRelationship, report, getStatus, deleteStatus, getStatusContext,
      getStatusRebloggedBy, getLists, getList, createList, updateList, deleteList,
      addAccountsToList, deleteAccountsFromList;
    cbv zeta; one_post env log.
Qed.

(** *** Reports *)

(** A report sends the account and the comment, and nothing of the
    statuses or of the forward flag the caller passed. The report it
    returns is made of the caller's own arguments: the server's answer
    contributes no data, the id is empty and the list of statuses is empty
    even when the caller reported some. *)
Theorem report_echoes_arguments (account_id comment : string)
    (_status_ids : option (list string)) (_forward : option bool) (env : Env) (log : Log) :
  snd (report account_id comment _status_ids _forward env log)
  = log ++ [sent env "/api/users/report-abuse"
              (<["comment" := VStr comment]> (<["userId" := VStr account_id]> ∅))] /\
  report account_id comment _status_ids _forward env log
  = report account_id comment None None env log /\
  forall out : Response E.Report,
    fst (report account_id comment _status_ids _forward env log) = inr out ->
    data out
    = {| E.report_id := ""; E.action_taken := ""; E.report_comment := comment;
         E.report_account_id := account_id; E.status_ids := [] |}.
Proof.
  unfold report, then_. rewrite (post_run TEmpty).
  change (object [("userId", VStr account_id); ("comment", VStr comment)])
    with (<["comment" := VStr comment]> (<["userId" := VStr account_id]> (∅ : gmap string Value))).
  destruct (transport env TEmpty log _) as [e|res]; cbn [fst snd];
    (split; [reflexivity|]); (split; [reflexivity|]).
  - intros out [=].
  - intros out [= <-]. reflexivity.
Qed.

Ltac in_list := repeat first [ apply list_elem_of_here | apply list_elem_of_further ].

Ltac body_lookups :=
  rewrite ?assign_object1;
  repeat split;
  [ vm_compute; reflexivity ..
  | let k := fresh "k" in let v := fresh "v" in let Hv := fresh "Hv" in
    intros k [v Hv];
    repeat (rewrite lookup_insert in Hv; case_decide; [subst k; in_list|]);
    rewrite lookup_empty in Hv; discriminate Hv ].

(** *** Updating the credentials *)

(** [pudateCredentials] posts to [/api/i]. [isBot] and [isLocked] are
    written unless the argument is [null], also when it is left out (the
    value is then [undefined]); [name], [description] and [lang] are
    written only for a string that is not empty; [alwaysMarkNsfw] only for
    [true], so that the flag cannot be cleared. The body holds nothing
    else: [discoverable], avatar, header, privacy and the profile fields
    never reach the server. *)
Theorem pudateCredentials_body (_discoverable : option bool) (bot : Optional bool)
    (display_name note _avatar _header : option string) (locked : Optional bool)
    (source : option Source) (_fields_attributes : option (list (string * string)))
    (env : Env) :
  exists body : gmap string Value,
    requests_of (pudateCredentials _discoverable bot display_name note _avatar _header
                   locked source _fields_attributes) env
    = [sent env "/api/i" body] /\
    body !! "isBot" = match bot with Null => None | _ => Some (optional_value VBool bot) end /\
    body !! "isLocked"
    = match locked with Null => None | _ => Some (optional_value VBool locked) end /\
    body !! "name" = VStr <$> truthy_string display_name /\
    body !! "description" = VStr <$> truthy_string note /\
    body !! "lang" = VStr <$> (source ≫= fun src => truthy_string (source_language src)) /\
    body !! "alwaysMarkNsfw"
    = VBool <$> (source ≫= fun src => truthy_bool (source_sensitive src)) /\
    (forall k : string,
       is_Some (body !! k) ->
       k ∈ ["isBot"; "name"; "description"; "isLocked"; "lang"; "alwaysMarkNsfw"]).
Proof.
  unfold pudateCredentials. cbv zeta. rewrite then_post_requests.
  eexists. split; [reflexivity|].
  destruct source as [[privacy sensitive language]|]; cbn [source_language source_sensitive mbind option_bind].
  - destruct bot, locked, (truthy_string display_name), (truthy_string note),
      (truthy_string language), (truthy_bool sensitive); cbn [fmap option_fmap option_map optional_value]; body_lookups.
  - destruct bot, locked, (truthy_string display_name), (truthy_string note);
      cbn [fmap option_fmap option_map optional_value]; body_lookups.
Qed.

(** *** Pagination, exactly *)

Ltac fresh_init :=
  unfold with_files; try destruct (truthy_bool _); rewrite ?assign_object1;
  vm_compute; reflexivity.

Ltac exact_keys Hr env path init l u s :=
  rewrite then_post_requests in Hr; apply list_elem_of_singleton in Hr; subst;
  exact (sent_paged_exact env path init l u s
           ltac:(fresh_init) ltac:(fresh_init) ltac:(fresh_init)).

(** What a listing writes for pagination is decided by the arguments it
    reads, and by nothing else: in every request it issues, [limit] is the
    limit read when that is not zero, [untilId] the [max_id] read when
    that is not empty, [sinceId] the [since_id] (for the listings of
    favourites, mutes and blocks: the [min_id]) read when that is not
    empty, and each of the three keys is absent otherwise. The listings of
    followers, of followed accounts, the account search and the
    suggestions read a limit only; follow requests and list members read
    none of the three. *)
Theorem pagination_encoding_exact (moment_parse : string -> option Z) (R : Type)
    (c : PaginatedCall R) (env : Env) (r : Request) :
  r ∈ requests_of (invoke_paginated moment_parse c) env ->
  req_body r !! "limit" = VNum <$> truthy_number (read_limit c) /\
  req_body r !! "untilId" = VStr <$> truthy_string (read_until c) /\
  req_body r !! "sinceId" = VStr <$> truthy_string (read_since c).
Proof.
  intros Hr.
  destruct c as
    [ id limit m s | id limit m s | q limit m s
    | limit max_id min_id | limit max_id min_id | limit max_id min_id
    | l | limit
    | only_media limit max_id since_id mi | only_media limit max_id since_id mi
    | hashtag lo only_media limit max_id since_id mi
    | lo limit max_id since_id mi | lid limit max_id since_id mi
    | limit max_id since_id mi | id l m s ];
    cbn [invoke_paginated read_limit read_until read_since] in *.
  - unfold getAccountFollowers in Hr.
    exact_keys Hr env "/api/users/followers" (object [("userId", VStr id)])
      limit (@None string) (@None string).
  - unfold getAccountFollowing in Hr.
    exact_keys Hr env "/api/users/following" (object [("userId", VStr id)])
      limit (@None string) (@None string).
  - unfold searchAccount in Hr.
    exact_keys Hr env "/api/users/search" (object [("query", VStr q)])
      limit (@None string) (@None string).
  - unfold getFavourites in Hr.
    exact_keys Hr env "/api/i/favorites" (∅ : gmap string Value) limit max_id min_id.
  - unfold getMutes in Hr.
    exact_keys Hr env "/api/mute/list" (∅ : gmap string Value) limit max_id min_id.
  - unfold getBlocks in Hr.
    exact_keys Hr env "/api/blocking/list" (∅ : gmap string Value) limit max_id min_id.
  - unfold getFollowRequests in Hr.
    exact_keys Hr env "/api/folllowing/requests/list" (∅ : gmap string Value)
      (@None Z) (@None string) (@None string).
  - unfold getSuggestions in Hr.
    exact_keys Hr env "/api/users/recommendation" (∅ : gmap string Value)
      limit (@None string) (@None string).
  - unfold getPublicTimeline in Hr.
    exact_keys Hr env "/api/notes/global-timeline" (with_files ∅ only_media)
      limit max_id since_id.
  - unfold getLocalTimeline in Hr.
    exact_keys Hr env "/api/notes/local-timeline" (with_files ∅ only_media)
      limit max_id since_id.
  - unfold getTagTimeline in Hr.
    exact_keys Hr env "/api/notes/search-by-tag"
      (with_files (object [("tag", VStr hashtag)]) only_media) limit max_id since_id.
  - unfold getHomeTimeline in Hr.
    exact_keys Hr env "/api/notes/timeline" (object [("withFiles", VBool false)])
      limit max_id since_id.
  - unfold getListTimeline in Hr.
    exact_keys Hr env "/api/notes/user-list-timeline"
      (object [("listId", VStr lid); ("withFiles", VBool false)]) limit max_id since_id.
  - unfold getConversationTimeline in Hr.
    exact_keys Hr env "/api/notes/mentions" (object [("visibility", VStr "specified")])
      limit max_id since_id.
  - destruct (getAccountsInList_requests id l m s env) as [ids Hreq].
    rewrite Hreq in Hr. apply elem_of_cons in Hr as [->|Hr].
    + repeat split; vm_compute; reflexivity.
    + apply list_elem_of_fmap in Hr as (uid & -> & _).
      repeat split; vm_compute; reflexivity.
Qed.

Lemma pagination_encoding_exact_witness :
  let r := sent (env_of offline) "/api/i/favorites"
             (paged ∅ (Some 20) (Some "") (Some "9abd")) in
  req_body r !! "limit" = Some (VNum 20) /\
  req_body r !! "untilId" = None /\
  req_body r !! "sinceId" = Some (VStr "9abd").
Proof.
  apply (pagination_encoding_exact parse_100 _
           (call_getFavourites (Some 20) (Some "") (Some "9abd")) (env_of offline)).
  apply list_elem_of_here.
Defined.

End FacadeMore.

(** ** The body of a new status *)

Module StatusParamsFacts.
Import StatusParams.
Module E := MegalodonEntity.
Module M := MisskeyEntity.

Lemma jassign_object1 (m : gmap string Json) (k : string) (v : Json) :
  jassign m (jobject [(k, v)]) = <[k := v]> m.
Proof.
  unfold jassign, jobject. simpl.
  rewrite insert_empty. symmetry. apply insert_union_singleton_l.
Qed.

Ltac in_keys := repeat first [ apply list_elem_of_here | apply list_elem_of_further ].

(** The body of a new status always carries the text. The content
    warning is the spoiler text when there is one; failing that it is the
    empty string for a sensitive status, and absent otherwise. The file
    ids, the reply id (when not empty) and the visibility, translated to
    Misskey's, are there exactly when given. Nothing else but a poll is
    ever sent: not the schedule, not the language. *)
Theorem postStatus_params_keys (status : string) (media_ids : option (list string))
    (poll : option PollArg) (in_reply_to_id : option string) (sensitive : option bool)
    (spoiler_text : option string) (visibility : option E.Visibility)
    (_scheduled_at _language : option string) :
  let params :=
    postStatus_params status media_ids poll in_reply_to_id sensitive spoiler_text
      visibility _scheduled_at _language in
  params !! "text" = Some (JStr status) /\
  params !! "cw"
  = match truthy_string spoiler_text with
    | Some s => Some (JStr s)
    | None => (fun _ => JStr "") <$> truthy_bool sensitive
    end /\
  params !! "fileIds" = (fun ids => JArr (map JStr ids)) <$> media_ids /\
  params !! "replyId" = JStr <$> truthy_string in_reply_to_id /\
  params !! "visibility"
  = (fun v => JStr (visibility_name (Converter.encodeVisibility v))) <$> visibility /\
  (is_Some (params !! "poll") <-> is_Some poll) /\
  (forall k : string,
     is_Some (params !! k) ->
     k ∈ ["text"; "fileIds"; "poll"; "replyId"; "cw"; "visibility"]).
Proof.
  unfold postStatus_params. cbv zeta.
  destruct media_ids, poll, (truthy_string in_reply_to_id), (truthy_bool sensitive),
    (truthy_string spoiler_text), visibility;
    cbn [fmap option_fmap option_map];
    rewrite ?jassign_object1; unfold jobject; cbn [foldl fst snd];
    (split; [vm_compute; reflexivity|]);
    (split; [vm_compute; reflexivity|]);
    (split; [vm_compute; reflexivity|]);
    (split; [vm_compute; reflexivity|]);
    (split; [vm_compute; reflexivity|]);
    (split;
     [ rewrite ?lookup_insert_ne by discriminate;
       first [ rewrite lookup_insert_eq | rewrite lookup_empty ];
       first [ split; intros _; eexists; reflexivity
             | split; intros [? H]; discriminate H ]
     | ]);
    intros k [j Hj];
    repeat (rewrite lookup_insert in Hj; case_decide; [subst k; in_keys|]);
    rewrite lookup_empty in Hj; discriminate Hj.
Qed.

(** The poll of a new status carries the options as choices and the
    caller's [expires_in] under [expiresAt], unchanged; [multiple] only
    when it is [true]; and never [hide_totals]. *)
Theorem postStatus_poll_object (status : string) (media_ids : option (list string))
    (poll : PollArg) (in_reply_to_id : option string) (sensitive : option bool)
    (spoiler_text : option string) (visibility : option E.Visibility)
    (_scheduled_at _language : option string) :
  exists o : gmap string Json,
    postStatus_params status media_ids (Some poll) in_reply_to_id sensitive spoiler_text
      visibility _scheduled_at _language !! "poll" = Some (JObj o) /\
    o !! "choices" = Some (JArr (map JStr (poll_options poll))) /\
    o !! "expiresAt" = Some (JNum (poll_expires_in poll)) /\
    o !! "multiple" = JBool <$> truthy_bool (poll_multiple poll) /\
    (forall k : string, is_Some (o !! k) -> k ∈ ["choices"; "expiresAt"; "multiple"]).
Proof.
  unfold postStatus_params. cbv zeta.
  eexists. split.
  - destruct media_ids, (truthy_string in_reply_to_id), (truthy_bool sensitive),
      (truthy_string spoiler_text), visibility;
      rewrite ?jassign_object1;
      rewrite ?lookup_insert_ne by discriminate; apply lookup_insert_eq.
  - destruct (truthy_bool (poll_multiple poll)); cbn [fmap option_fmap option_map];
      rewrite ?jassign_object1; unfold jobject; cbn [foldl fst snd];
      (split; [vm_compute; reflexivity|]);
      (split; [vm_compute; reflexivity|]);
      (split; [vm_compute; reflexivity|]);
      intros k [j Hj];
      repeat (rewrite lookup_insert in Hj; case_decide; [subst k; in_keys|]);
      rewrite lookup_empty in Hj; discriminate Hj.
Qed.

(** Posting with the visibility of a converted note sends the note's own
    Misskey visibility: the two translations cancel out on the way. *)
Theorem postStatus_visibility_of_note (moment_parse : string -> option Z) (now : Z)
    (n : M.Note) (status : string) (media_ids : option (list string))
    (poll : option PollArg) (in_reply_to_id : option string) (sensitive : option bool)
    (spoiler_text : option string) (_scheduled_at _language : option string) :
  postStatus_params status media_ids poll in_reply_to_id sensitive spoiler_text
    (Some (E.visibility (Converter.note moment_parse now n))) _scheduled_at _language
    !! "visibility"
  = Some (JStr (visibility_name (M.note_visibility n))).
Proof.
  unfold postStatus_params. cbv zeta. rewrite jassign_object1, lookup_insert_eq.
  destruct n as [? ? ? ? ? vis ? ? ? ? ? ? ? ?]. destruct vis; reflexivity.
Qed.

End StatusParamsFacts.
